(** * Progress observers of the Minecraft Overviewer

    A shallow embedding of [overviewer_core/observer.py] (Python 2) and the
    properties of its four observer classes: the base [Observer], the
    [LoggingObserver], the [ProgressBarObserver] and the [JSObserver].

    Conventions of the embedding.
    - An instance is its attribute dictionary, a [gmap string pyval]; reading
      an attribute that was never assigned raises [AttributeError].
    - Python integers (int and long alike) are [Z].  Python floats are exact
      rationals kept in lowest terms; the rounding of IEEE arithmetic is not
      part of the model.
    - [time.time()] reads an oracle [clock : nat -> Q] (seconds), one reading
      per call; the world counts the readings taken so far.
    - [logging], the terminal stream and the file [progress.js] are recorded
      in the world as the calls made on them. *)

From Stdlib Require Import ZArith QArith Qround Qminmax Lqa Lia.
From stdpp Require Import gmap strings pretty list.

Open Scope Z_scope.

(** ** Python values *)

Inductive pyval :=
| PNone
| PBool (b : bool)
| PInt (z : Z)
| PFloat (q : Q)
| PObj.   (* a reference to the observer instance itself *)

Inductive exn := AttributeError | TypeError | ZeroDivisionError.

Inductive res (A : Type) :=
| Val (a : A)
| Exc (e : exn).
Arguments Val {A} a.
Arguments Exc {A} e.

(** The numeric tower: booleans are integers, integers coerce to floats. *)
Inductive num := NInt (z : Z) | NFloat (q : Q).

Definition as_num (v : pyval) : option num :=
  match v with
  | PBool b => Some (NInt (if b then 1 else 0))
  | PInt z => Some (NInt z)
  | PFloat q => Some (NFloat q)
  | PNone | PObj => None
  end.

Definition num_Q (n : num) : Q :=
  match n with NInt z => inject_Z z | NFloat q => q end.

Definition mkfloat (q : Q) : pyval := PFloat (Qred q).

Definition Qis_zero (q : Q) : bool := Qnum q =? 0.

(** [a + b], [a - b], [a * b]: integer when both operands are, float
    otherwise; [TypeError] on [None] and on objects. *)
Definition arith (fz : Z -> Z -> Z) (fq : Q -> Q -> Q) (a b : pyval) : res pyval :=
  match as_num a, as_num b with
  | Some (NInt x), Some (NInt y) => Val (PInt (fz x y))
  | Some x, Some y => Val (mkfloat (fq (num_Q x) (num_Q y)))
  | _, _ => Exc TypeError
  end.

Definition py_add := arith Z.add Qplus.
Definition py_sub := arith Z.sub Qminus.
Definition py_mul := arith Z.mul Qmult.

(** [a / b] of Python 2 (no [from __future__ import division] in the module):
    floor division on two integers, true division as soon as one operand is
    a float. *)
Definition py_div (a b : pyval) : res pyval :=
  match as_num a, as_num b with
  | Some (NInt x), Some (NInt y) =>
      if y =? 0 then Exc ZeroDivisionError else Val (PInt (x / y))
  | Some x, Some y =>
      if Qis_zero (num_Q y) then Exc ZeroDivisionError
      else Val (mkfloat (num_Q x / num_Q y))
  | _, _ => Exc TypeError
  end.

(** [a // b]: the floor of the quotient, an integer on integers and a float
    with an integral value otherwise. *)
Definition py_floordiv (a b : pyval) : res pyval :=
  match as_num a, as_num b with
  | Some (NInt x), Some (NInt y) =>
      if y =? 0 then Exc ZeroDivisionError else Val (PInt (x / y))
  | Some x, Some y =>
      if Qis_zero (num_Q y) then Exc ZeroDivisionError
      else Val (mkfloat (inject_Z (Qfloor (num_Q x / num_Q y))))
  | _, _ => Exc TypeError
  end.

(** Comparison never raises in Python 2: numbers compare by value, [None] is
    below every number and every number is below an object. *)
Definition rank (v : pyval) : nat :=
  match v with PNone => 0 | PObj => 2 | _ => 1 end%nat.

Definition py_cmp (a b : pyval) : comparison :=
  match as_num a, as_num b with
  | Some x, Some y => Qcompare (num_Q x) (num_Q y)
  | _, _ => Nat.compare (rank a) (rank b)
  end.

Definition py_lt (a b : pyval) : bool :=
  match py_cmp a b with Lt => true | _ => false end.
Definition py_gt (a b : pyval) : bool :=
  match py_cmp a b with Gt => true | _ => false end.
Definition py_le (a b : pyval) : bool :=
  match py_cmp a b with Gt => false | _ => true end.

(** [max(a, b)] keeps its first argument unless the second is greater. *)
Definition py_max (a b : pyval) : pyval := if py_gt b a then b else a.

(** [x is 0]: identity with the interned small integer zero. *)
Definition is_int_zero (v : pyval) : bool :=
  match v with PInt 0 => true | _ => false end.

Definition is_None (v : pyval) : bool :=
  match v with PNone => true | _ => false end.

(** Truth value, as tested by [if amount:] and by [and] / [not]. *)
Definition truthy (v : pyval) : bool :=
  match v with
  | PNone => false
  | PBool b => b
  | PInt z => negb (z =? 0)
  | PFloat q => negb (Qis_zero q)
  | PObj => true
  end.

(** The integer part of a rational, rounding toward zero. *)
Definition Qtrunc (q : Q) : Z :=
  if Qle_bool 0 q then Qfloor q else Qceiling q.

(** The number a [%d] conversion prints: a float loses its fraction, anything
    that is not a number is a [TypeError]. *)
Definition fmt_d (v : pyval) : res Z :=
  match as_num v with
  | Some (NInt z) => Val z
  | Some (NFloat q) => Val (Qtrunc q)
  | None => Exc TypeError
  end.

(** ** The world: the instance, the clock and the collaborators *)

(** A JSON value as it appears after ["update": ] in [progress.js]. *)
Inductive json :=
| JInt (z : Z)        (* an integer literal *)
| JFloat (q : Q)      (* a float literal *)
| JStr (s : string)   (* a quoted string *)
| JRaw (s : string).  (* any other text a [%s] conversion leaves *)

(** The object written to [progress.js]. *)
Record document := Document { doc_message : string; doc_update : json }.

(** What a [%s] conversion prints for a value. *)
Definition fmt_s (v : pyval) : json :=
  match v with
  | PInt z => JInt z
  | PFloat q => JFloat q
  | PBool true => JRaw "True"
  | PBool false => JRaw "False"
  | PNone => JRaw "None"
  | PObj => JRaw "<object>"
  end.

(** The file [progress.js]: truncated by [open(.., "w")], then written. *)
Inductive fcontent := FEmpty | FDoc (d : document).

(** A call [logging.info(fmt, *args)]. *)
Record log_record := LogInfo { log_fmt : string; log_args : list pyval }.

(** What reaches the terminal stream [fd]. *)
Inductive fd_event :=
| BarFrame (v : pyval)   (* the bar repainted at value [v] *)
| FdText (s : string).

Record world := World {
  attrs : gmap string pyval;   (* the instance dictionary *)
  clock : nat -> Q;            (* successive results of [time.time()] *)
  ticks : nat;                 (* readings of the clock taken so far *)
  log : list log_record;       (* calls to [logging.info], latest first *)
  file : option fcontent;      (* [progress.js]; [None] while it does not exist *)
  writes : nat;                (* calls to [f.write] so far *)
  fd : list fd_event           (* terminal output, latest first *)
}.

Definition fresh (clk : nat -> Q) : world :=
  {| attrs := ∅; clock := clk; ticks := 0; log := []; file := None;
     writes := 0; fd := [] |}.

(** ** A state and exception monad *)

Inductive outcome (A : Type) :=
| Ok (a : A) (w : world)
| Raise (e : exn) (w : world).
Arguments Ok {A} a w.
Arguments Raise {A} e w.

Definition M (A : Type) := world -> outcome A.

Definition ret {A} (a : A) : M A := fun w => Ok a w.

Definition bind {A B} (m : M A) (k : A -> M B) : M B :=
  fun w => match m w with
           | Ok a w' => k a w'
           | Raise e w' => Raise e w'
           end.

Notation "'let*' x ':=' c 'in' k" := (bind c (fun x => k))
  (at level 10, x name, c at level 100, k at level 200).
Notation "c ';;' k" := (bind c (fun _ => k))
  (at level 100, k at level 200, right associativity).

Definition lift {A} (r : res A) : M A :=
  fun w => match r with Val a => Ok a w | Exc e => Raise e w end.

Definition final {A} (o : outcome A) : world :=
  match o with Ok _ w => w | Raise _ w => w end.

Definition raised {A} (o : outcome A) : option exn :=
  match o with Ok _ _ => None | Raise e _ => Some e end.

Definition value {A} (o : outcome A) : option A :=
  match o with Ok a _ => Some a | Raise _ _ => None end.

(** ** Primitive effects *)

Inductive cls := Observer | LoggingObserver | ProgressBarObserver | JSObserver.

(** Attributes defined in a class body. *)
Definition class_attr (c : cls) (name : string) : option pyval :=
  match c with
  | ProgressBarObserver =>
      if String.eqb name "UPDATE_INTERVAL" then Some (PInt 25) else None
  | _ => None
  end.

(** [self.name]: the instance dictionary first, then the class. *)
Definition getattr (c : cls) (name : string) : M pyval :=
  fun w => match attrs w !! name with
           | Some v => Ok v w
           | None => match class_attr c name with
                     | Some v => Ok v w
                     | None => Raise AttributeError w
                     end
           end.

Definition with_attrs (w : world) (a : gmap string pyval) : world :=
  {| attrs := a; clock := clock w; ticks := ticks w; log := log w;
     file := file w; writes := writes w; fd := fd w |}.

Definition tick (w : world) : world :=
  {| attrs := attrs w; clock := clock w; ticks := S (ticks w); log := log w;
     file := file w; writes := writes w; fd := fd w |}.

Definition with_log (w : world) (l : list log_record) : world :=
  {| attrs := attrs w; clock := clock w; ticks := ticks w; log := l;
     file := file w; writes := writes w; fd := fd w |}.

Definition with_file (w : world) (f : option fcontent) (n : nat) : world :=
  {| attrs := attrs w; clock := clock w; ticks := ticks w; log := log w;
     file := f; writes := n; fd := fd w |}.

Definition with_fd (w : world) (l : list fd_event) : world :=
  {| attrs := attrs w; clock := clock w; ticks := ticks w; log := log w;
     file := file w; writes := writes w; fd := l |}.

(** [self.name = v] *)
Definition setattr (name : string) (v : pyval) : M unit :=
  fun w => Ok tt (with_attrs w (<[name := v]> (attrs w))).

(** [time.time()]: the next reading of the clock. *)
Definition time_time : M pyval :=
  fun w => Ok (mkfloat (clock w (ticks w))) (tick w).

(** [logging.info(fmt, *args)] *)
Definition logging_info (fmt : string) (args : list pyval) : M unit :=
  fun w => Ok tt (with_log w (LogInfo fmt args :: log w)).

(** [self.fd.write(..)] and the painting of the bar itself. *)
Definition fd_write (e : fd_event) : M unit :=
  fun w => Ok tt (with_fd w (e :: fd w)).

(** [f = open(self.logfile, "w", 0)]: the file exists and is empty. *)
Definition open_w : M unit :=
  fun w => Ok tt (with_file w (Some FEmpty) (writes w)).

(** [f.write(..)] on the unbuffered handle. *)
Definition f_write (d : document) : M unit :=
  fun w => Ok tt (with_file w (Some (FDoc d)) (S (writes w))).

(** ** The methods

    A method that subclasses override is a function of the class of the
    instance; [Observer_update] and the like are the bodies found in the
    source, [update] and the like do the dispatch of [self.update(..)]. *)

Definition get_current_value (c : cls) : M pyval :=
  match c with
  | ProgressBarObserver => getattr c "currval"
  | _ => getattr c "_current_value"
  end.

Definition get_max_value (c : cls) : M pyval :=
  match c with
  | ProgressBarObserver => getattr c "maxval"
  | _ => getattr c "_max_value"
  end.

Definition _set_max_value (c : cls) (max_value : pyval) : M unit :=
  match c with
  | ProgressBarObserver => setattr "maxval" max_value
  | _ => setattr "_max_value" max_value
  end.

(** [Observer.get_percentage]; [JSObserver] repeats the same body and
    [ProgressBarObserver] inherits it. *)
Definition get_percentage (c : cls) : M pyval :=
  let* m := get_max_value c in
  if is_int_zero m then ret (PFloat 100)
  else
    let* cur := get_current_value c in
    let* x := lift (py_mul cur (PFloat 100)) in
    let* m' := get_max_value c in
    lift (py_div x m').

(** The three-band test that [LoggingObserver._need_update] and the second
    half of [JSObserver._need_update] both spell out. *)
Definition staircase (c : cls) (cur_val : pyval) : M pyval :=
  if py_lt cur_val (PInt 100) then
    let* lu := getattr c "last_update" in
    let* d := lift (py_sub cur_val lu) in
    ret (PBool (py_gt d (PInt 10)))
  else if py_lt cur_val (PInt 500) then
    let* lu := getattr c "last_update" in
    let* d := lift (py_sub cur_val lu) in
    ret (PBool (py_gt d (PInt 50)))
  else
    let* lu := getattr c "last_update" in
    let* d := lift (py_sub cur_val lu) in
    ret (PBool (py_gt d (PInt 100))).

Definition LoggingObserver_need_update (c : cls) : M pyval :=
  let* cur_val := get_current_value c in
  staircase c cur_val.

Definition ProgressBarObserver_need_update (c : cls) : M pyval :=
  let* cur := get_current_value c in
  let* lu := getattr c "last_update" in
  let* d := lift (py_sub cur lu) in
  let* ui := getattr c "UPDATE_INTERVAL" in
  ret (PBool (py_gt d ui)).

Definition JSObserver_need_update (c : cls) : M pyval :=
  let* cur_val := get_current_value c in
  let* t := time_time in
  let* lut := getattr c "last_update_time" in
  let* d := lift (py_sub t lut) in
  let* mr := getattr c "minrefresh" in
  let* floor := lift (py_floordiv mr (PInt 1000)) in
  if py_le d floor then ret (PBool false)
  else staircase c cur_val.

(** The base class defines no [_need_update]. *)
Definition _need_update (c : cls) : M pyval :=
  match c with
  | Observer => fun w => Raise AttributeError w
  | LoggingObserver => LoggingObserver_need_update c
  | ProgressBarObserver => ProgressBarObserver_need_update c
  | JSObserver => JSObserver_need_update c
  end.

Definition Observer_update (current_value : pyval) : M pyval :=
  setattr "_current_value" current_value ;;
  ret (PBool false).

Definition LoggingObserver_update (c : cls) (current_value : pyval) : M pyval :=
  Observer_update current_value ;;
  let* need := _need_update c in
  if truthy need then
    let* cur := get_current_value c in
    let* m := get_max_value c in
    let* p := get_percentage c in
    logging_info "Rendered %d of %d.  %d%% complete" [cur; m; p] ;;
    setattr "last_update" current_value ;;
    ret (PBool true)
  else ret (PBool false).

(** Modelled from the spec: [progressbar.ProgressBar.update], the update
    operation of the external bar renderer, which is not part of this module.
    The renderer keeps the value in its own counter [currval], and repaints,
    answering [True], when the throttle predicate [_need_update] of the
    instance holds. *)
Definition ProgressBar_update (c : cls) (value : pyval) : M pyval :=
  setattr "currval" value ;;
  let* need := _need_update c in
  if truthy need then
    fd_write (BarFrame value) ;;
    ret (PBool true)
  else ret (PBool false).

Definition ProgressBarObserver_update (c : cls) (current_value : pyval) : M pyval :=
  let* painted := ProgressBar_update c current_value in
  if truthy painted then
    let* cur := get_current_value c in
    setattr "last_update" cur ;;
    ret PNone
  else ret PNone.

Definition JSObserver_update (c : cls) (current_value : pyval) : M pyval :=
  setattr "_current_value" current_value ;;
  let* need := _need_update c in
  if truthy need then
    let* t := time_time in
    let* lut := getattr c "last_update_time" in
    let* d := lift (py_sub t lut) in
    let* x := lift (py_mul (PInt 1500) d) in
    let* mr := getattr c "minrefresh" in
    let refresh := py_max x mr in
    open_w ;;
    let* cur := get_current_value c in
    let* m := get_max_value c in
    let* p := get_percentage c in
    let* zcur := lift (fmt_d cur) in
    let* zm := lift (fmt_d m) in
    let* zp := lift (fmt_d p) in
    let* zrefresh := lift (fmt_d refresh) in
    f_write {| doc_message := "Rendered " +:+ pretty zcur +:+ " of " +:+ pretty zm
                              +:+ " tiles (" +:+ pretty zp +:+ "%)";
               doc_update := JInt zrefresh |} ;;
    let* t' := time_time in
    setattr "last_update_time" t' ;;
    setattr "last_update" current_value ;;
    ret (PBool true)
  else ret (PBool false).

Definition update (c : cls) (current_value : pyval) : M pyval :=
  match c with
  | Observer => Observer_update current_value
  | LoggingObserver => LoggingObserver_update c current_value
  | ProgressBarObserver => ProgressBarObserver_update c current_value
  | JSObserver => JSObserver_update c current_value
  end.

(** [Observer.add]; [JSObserver.add] repeats the same body. *)
Definition add (c : cls) (amount : pyval) : M pyval :=
  if truthy amount then
    let* cur := get_current_value c in
    let* v := lift (py_add cur amount) in
    update c v ;;
    ret PNone
  else ret PNone.

(** [Observer.start], inherited by [LoggingObserver]. *)
Definition Observer_start (c : cls) (max_value : pyval) : M pyval :=
  _set_max_value c max_value ;;
  let* t := time_time in
  setattr "start_time" t ;;
  update c (PInt 0) ;;
  ret PObj.

Definition JSObserver_start (c : cls) (max_value : pyval) : M pyval :=
  open_w ;;
  let* mr := getattr c "minrefresh" in
  let* zmax := lift (fmt_d max_value) in
  f_write {| doc_message := "Rendering " +:+ pretty zmax +:+ " tiles";
             doc_update := fmt_s mr |} ;;
  let* t := time_time in
  setattr "start_time" t ;;
  _set_max_value c max_value ;;
  ret PNone.

(** [ProgressBarObserver.start]; [bar_start] is the start sequence of the
    external bar renderer, [super(ProgressBarObserver, self).start()]. *)
Definition ProgressBarObserver_start (bar_start : M pyval) (c : cls)
    (max_value : pyval) : M pyval :=
  _set_max_value c max_value ;;
  let* z := lift (fmt_d max_value) in
  logging_info ("Rendering " +:+ pretty z +:+ " total tiles.") [] ;;
  bar_start ;;
  ret PNone.

(** The same body in [Observer], [ProgressBarObserver] and [JSObserver]. *)
Definition is_started (c : cls) : M pyval :=
  let* t := getattr c "start_time" in
  ret (PBool (negb (is_None t))).

(** [Observer.is_finished]; [JSObserver] repeats the same body. *)
Definition is_finished (c : cls) : M pyval :=
  let* t := getattr c "end_time" in
  ret (PBool (negb (is_None t))).

(** [self.is_started() and not self.is_finished()] *)
Definition is_running (c : cls) : M pyval :=
  let* s := is_started c in
  if truthy s then
    let* f := is_finished c in
    ret (PBool (negb (truthy f)))
  else ret s.

Definition Observer_finish : M pyval :=
  let* t := time_time in
  setattr "end_time" t ;;
  ret PNone.

Definition LoggingObserver_finish (c : cls) : M pyval :=
  let* m1 := get_max_value c in
  let* m2 := get_max_value c in
  logging_info "Rendered %d of %d.  %d%% complete" [m1; m2; PFloat 100] ;;
  Observer_finish.

Definition newline : string := String (Ascii.ascii_of_nat 10) EmptyString.

(** [ProgressBarObserver.finish]; [bar_finish] is the finish sequence of the
    external bar renderer. *)
Definition ProgressBarObserver_finish (bar_finish : M pyval) : M pyval :=
  let* t := time_time in
  setattr "_end_time" t ;;
  bar_finish ;;
  fd_write (FdText newline) ;;
  logging_info "Rendering complete!" [] ;;
  ret PNone.

Definition JSObserver_finish (c : cls) : M pyval :=
  let* t := time_time in
  setattr "end_time" t ;;
  let* e := getattr c "end_time" in
  let* s := getattr c "start_time" in
  let* duration := lift (py_sub e s) in
  open_w ;;
  let* mins := lift (py_floordiv duration (PInt 60)) in
  let* mins' := lift (py_floordiv duration (PInt 60)) in
  let* secs := lift (py_sub duration mins') in
  let* zmins := lift (fmt_d mins) in
  let* zsecs := lift (fmt_d secs) in
  f_write {| doc_message := "Render completed in " +:+ pretty zmins +:+ "m "
                            +:+ pretty zsecs +:+ "s";
             doc_update := JStr "false" |} ;;
  ret PNone.

(** ** Constructors *)

Definition Observer__init__ : M unit :=
  setattr "_current_value" PNone ;;
  setattr "_max_value" PNone ;;
  setattr "start_time" PNone ;;
  setattr "end_time" PNone.

(** [super(Observer, self).__init__()] resolves past [Observer], to
    [object.__init__], which assigns nothing. *)
Definition object__init__ : M unit := ret tt.

Definition LoggingObserver__init__ : M unit :=
  object__init__ ;;
  setattr "last_update" (PInt (-101)).

(** [bar_attrs] is what the constructor of the external bar renderer leaves
    in the instance dictionary. *)
Definition ProgressBarObserver__init__ (bar_attrs : gmap string pyval) : M unit :=
  (fun w => Ok tt (with_attrs w (bar_attrs ∪ attrs w))) ;;
  let* ui := getattr ProgressBarObserver "UPDATE_INTERVAL" in
  let* k := lift (py_add ui (PInt 1)) in
  let* lu := lift (py_sub (PInt 0) k) in
  setattr "last_update" lu.

(** [self.logfile] is the one file the world holds; the attribute itself is
    left out of the dictionary. *)
Definition JSObserver__init__ (minrefresh : pyval) : M unit :=
  setattr "last_update" (PInt (-11)) ;;
  setattr "last_update_time" (PInt (-1)) ;;
  setattr "_current_value" (PInt (-1)) ;;
  let* ms := lift (py_mul (PInt 1000) minrefresh) in
  setattr "minrefresh" ms ;;
  open_w ;;
  let* mr := getattr JSObserver "minrefresh" in
  let* z := lift (fmt_d mr) in
  f_write {| doc_message := "Render in progress"; doc_update := JInt z |}.

(** ** Call sequences *)

(** [update] called on each value of a list in turn; the answers in order. *)
Fixpoint updates (c : cls) (vs : list pyval) : M (list pyval) :=
  match vs with
  | [] => ret []
  | v :: vs' =>
      let* r := update c v in
      let* rs := updates c vs' in
      ret (r :: rs)
  end.

(** A call on the base tracker, with integer arguments. *)
Inductive call :=
| CStart (max_value : Z)
| CUpdate (current_value : Z)
| CAdd (amount : Z)
| CFinish
| CIsStarted
| CIsFinished
| CIsRunning
| CGetPercentage
| CGetCurrentValue
| CGetMaxValue.

Definition Observer_call (k : call) : M pyval :=
  match k with
  | CStart m => Observer_start Observer (PInt m)
  | CUpdate v => update Observer (PInt v)
  | CAdd d => add Observer (PInt d)
  | CFinish => Observer_finish
  | CIsStarted => is_started Observer
  | CIsFinished => is_finished Observer
  | CIsRunning => is_running Observer
  | CGetPercentage => get_percentage Observer
  | CGetCurrentValue => get_current_value Observer
  | CGetMaxValue => get_max_value Observer
  end.

Fixpoint Observer_calls (ks : list call) : M (list pyval) :=
  match ks with
  | [] => ret []
  | k :: ks' =>
      let* r := Observer_call k in
      let* rs := Observer_calls ks' in
      ret (r :: rs)
  end.

(** The base tracker after [start]: its four attributes are assigned, the
    two values with integers. *)
Definition tracker_ready (w : world) : Prop :=
  exists (cur max : Z) (t e : pyval),
    attrs w !! "_current_value" = Some (PInt cur) /\
    attrs w !! "_max_value" = Some (PInt max) /\
    attrs w !! "start_time" = Some t /\
    attrs w !! "end_time" = Some e.

(** ** The contract of [start] in the words of the specification *)

(** The instance once [start] has set [max_value] and recorded the clock
    reading as [start_time]. *)
Definition started_world (c : cls) (max_value : Z) (w : world) : world :=
  tick (with_attrs w
          (<["start_time" := mkfloat (clock w (ticks w))]>
             (<[(match c with ProgressBarObserver => "maxval" | _ => "_max_value" end)
                := PInt max_value]> (attrs w)))).

(** [start(max_value)] sets [max_value], records [start_time = now], then
    performs an internal [update(0)], and returns the tracker itself. *)
Definition start_contract (c : cls) (start : M pyval) (max_value : Z) (w : world) : Prop :=
  exists r w',
    update c (PInt 0) (started_world c max_value w) = Ok r w' /\
    start w = Ok PObj w'.

(** ** The throttle policies in the words of the specification *)

(** The delta an update must exceed, by band of the current value. *)
Definition threshold (cur : Z) : Z :=
  if cur <? 100 then 10 else if cur <? 500 then 50 else 100.

(** The staircase threshold is crossed. *)
Definition crossed (cur last : Z) : bool := threshold cur <? cur - last.

(** Which updates of a sequence cross the threshold, [last] being the last
    emitted value, which every crossing replaces. *)
Fixpoint crossings (last : Z) (vs : list Z) : list bool :=
  match vs with
  | [] => []
  | v :: vs' =>
      if crossed v last then true :: crossings v vs'
      else false :: crossings last vs'
  end.

Definition count_true (bs : list bool) : nat := length (filter (fun b => b = true) bs).

(** The fixed-interval policy of the terminal sink. *)
Definition interval_crossed (cur last : Z) : bool := 25 <? cur - last.

(** The values of a sequence at which the fixed-interval policy emits. *)
Fixpoint interval_emitted (last : Z) (vs : list Z) : list Z :=
  match vs with
  | [] => []
  | v :: vs' =>
      if interval_crossed v last then v :: interval_emitted v vs'
      else interval_emitted last vs'
  end.

(** The frames painted for a list of values, latest first as [fd] keeps them. *)
Definition frames (vs : list Z) : list fd_event :=
  rev ((fun v => BarFrame (PInt v)) <$> vs).

(** The time floor of the status file sink as the code tests it: the
    seconds elapsed since the last emission exceed [minrefresh // 1000]. *)
Definition time_floor_passed (now lut : Q) (ms : Z) : bool :=
  negb (Qle_bool (now - lut) (inject_Z (ms / 1000))).

(** The suggested poll interval in the words of the specification,
    [max(K * observedInterval, minRefreshMs)] with [K = 1500], as the
    integer number of milliseconds the document holds. *)
Definition suggested_poll (now lut : Q) (ms : Z) : Z :=
  Qtrunc (Qmax (1500 * (now - lut)) (inject_Z ms)).

(** The percentage of [cur] out of an integer [max]. *)
Definition percent_of (cur max : Z) : Q :=
  if max =? 0 then 100 else inject_Z cur * 100 / inject_Z max.

Definition rendered_message (cur max : Z) : string :=
  "Rendered " +:+ pretty cur +:+ " of " +:+ pretty max +:+ " tiles ("
  +:+ pretty (Qtrunc (percent_of cur max)) +:+ "%)".

(** ** Sample runs *)

(** Clocks started late in 2023, read every second, every 25 ms and every
    six seconds. *)
Definition epoch : nat -> Q := fun n => inject_Z (1700000000 + Z.of_nat n).
Definition epoch_fast : nat -> Q :=
  fun n => (1700000000 + inject_Z (Z.of_nat n) / 40)%Q.
Definition epoch_slow : nat -> Q := fun n => inject_Z (1700000000 + 6 * Z.of_nat n).

(** A status file sink built with [minrefresh=5] and started on 100 tiles. *)
Definition js_started (clk : nat -> Q) : world :=
  final ((JSObserver__init__ (PInt 5) ;; JSObserver_start JSObserver (PInt 100))
           (fresh clk)).

(** The updates of the end-to-end scenario of the specification. *)
Definition scenario_values : list Z := [15; 20; 26].

(** The updates of the terminal sink example. *)
Definition terminal_values : list Z := [0; 10; 24; 26; 50].

(** A clock on which the fifth reading comes 125 s after the first. *)
Definition epoch_long : nat -> Q :=
  fun n => (1700000000 + inject_Z (Z.of_nat n) * (125 # 4))%Q.

(** A status file sink built with [minrefresh=5], before [start]. *)
Definition js_built (clk : nat -> Q) : world :=
  final (JSObserver__init__ (PInt 5) (fresh clk)).

(** A base tracker started on [max] units and updated to 2. *)
Definition tracker_at_2 (max : Z) (clk : nat -> Q) : world :=
  final ((Observer__init__ ;; Observer_start Observer (PInt max) ;;
          update Observer (PInt 2)) (fresh clk)).

(** A log sink started on 1000 tiles. *)
Definition log_started (clk : nat -> Q) : world :=
  final ((LoggingObserver__init__ ;; Observer_start LoggingObserver (PInt 1000))
           (fresh clk)).

(** A terminal sink on a bar renderer whose constructor leaves nothing in
    the instance dictionary. *)
Definition bar_built (clk : nat -> Q) : world :=
  final (ProgressBarObserver__init__ ∅ (fresh clk)).

(** A terminal sink whose renderer counts [cur] and whose last emission was
    at [last]. *)
Definition bar_at (cur last : Z) (clk : nat -> Q) : world :=
  with_attrs (fresh clk) (<["currval" := PInt cur]> (<["last_update" := PInt last]> ∅)).

(** ** More call sequences *)

(** [add] called on each amount of a list in turn. *)
Fixpoint adds (c : cls) (ds : list pyval) : M unit :=
  match ds with
  | [] => ret tt
  | d :: ds' => add c d ;; adds c ds'
  end.

Definition is_finish (k : call) : bool :=
  match k with CFinish => true | _ => false end.

(** Some call of the sequence is [finish]. *)
Definition finish_called (ks : list call) : bool := existsb is_finish ks.

(** The attributes the methods of an instance of class [c] read once it is
    constructed and started, with integers where the tracked values go;
    [cur] is its current value.  (The terminal sink counts in the [currval]
    of its renderer and is left out.) *)
Definition sink_ready (c : cls) (cur : Z) (w : world) : Prop :=
  attrs w !! "_current_value" = Some (PInt cur) /\
  match c with
  | Observer => True
  | LoggingObserver =>
      exists lu m : Z,
        attrs w !! "last_update" = Some (PInt lu) /\
        attrs w !! "_max_value" = Some (PInt m)
  | JSObserver =>
      exists (lut : pyval) (nl : num) (ms lu m : Z),
        attrs w !! "last_update_time" = Some lut /\ as_num lut = Some nl /\
        attrs w !! "minrefresh" = Some (PInt ms) /\
        attrs w !! "last_update" = Some (PInt lu) /\
        attrs w !! "_max_value" = Some (PInt m)
  | ProgressBarObserver => False
  end.

(** The last emitted value of the staircase policy after a sequence. *)
Fixpoint last_after (last : Z) (vs : list Z) : Z :=
  match vs with
  | [] => last
  | v :: vs' => if crossed v last then last_after v vs' else last_after last vs'
  end.

(** A base tracker started with the float [0.0] as [max_value]. *)
Definition tracker_float_zero (clk : nat -> Q) : world :=
  final ((Observer__init__ ;; Observer_start Observer (PFloat 0)) (fresh clk)).

(** Three single steps. *)
Definition unit_steps : list Z := [1; 1; 1].

(** A call on a started status file sink, with integer arguments. *)
Inductive js_call :=
| JStart (max_value : Z)
| JUpdate (current_value : Z)
| JAdd (amount : Z)
| JFinish
| JIsStarted
| JGetPercentage.

Definition JSObserver_call (k : js_call) : M pyval :=
  match k with
  | JStart m => JSObserver_start JSObserver (PInt m)
  | JUpdate v => update JSObserver (PInt v)
  | JAdd d => add JSObserver (PInt d)
  | JFinish => JSObserver_finish JSObserver
  | JIsStarted => is_started JSObserver
  | JGetPercentage => get_percentage JSObserver
  end.

Fixpoint JSObserver_calls (ks : list js_call) : M (list pyval) :=
  match ks with
  | [] => ret []
  | k :: ks' =>
      let* r := JSObserver_call k in
      let* rs := JSObserver_calls ks' in
      ret (r :: rs)
  end.

(** A started status file sink: the attributes its methods read are
    assigned, numbers where numbers go, and [progress.js] holds a whole
    document. *)
Definition js_running (w : world) : Prop :=
  (exists cur, sink_ready JSObserver cur w) /\
  (exists st ns, attrs w !! "start_time" = Some st /\ as_num st = Some ns) /\
  (exists d, file w = Some (FDoc d)).

(** A status file sink built with the float [2.5] as [minrefresh] and
    started on 100 tiles. *)
Definition js_fractional (clk : nat -> Q) : world :=
  final ((JSObserver__init__ (PFloat (5 # 2)) ;; JSObserver_start JSObserver (PInt 100))
           (fresh clk)).

(** A clock read every 2.25 s. *)
Definition epoch_steady : nat -> Q :=
  fun n => (1700000000 + inject_Z (Z.of_nat n) * (9 # 4))%Q.

(** The sink built with [2.5] after its first update, which emits. *)
Definition js_fractional_emitted (clk : nat -> Q) : world :=
  final (update JSObserver (PInt 0) (js_fractional clk)).

(** * Properties *)

(** ** Rationals in lowest terms *)

Lemma mkfloat_proper (p q : Q) : p == q -> mkfloat p = mkfloat q.
Proof. intros E. unfold mkfloat. f_equal. now apply Qred_complete. Qed.

Lemma Qtrunc_proper (p q : Q) : p == q -> Qtrunc p = Qtrunc q.
Proof.
  intros E. unfold Qtrunc.
  assert (Qle_bool 0 p = Qle_bool 0 q) as ->.
  { apply eq_true_iff_eq. rewrite !Qle_bool_iff. now rewrite E. }
  destruct (Qle_bool 0 q).
  - now apply Qfloor_comp.
  - now apply Qceiling_comp.
Qed.

Lemma Qtrunc_inject_Z (z : Z) : Qtrunc (inject_Z z) = z.
Proof.
  unfold Qtrunc. destruct (Qle_bool 0 (inject_Z z)).
  - apply Qfloor_Z.
  - apply Qceiling_Z.
Qed.

Lemma Qtrunc_Qred (q : Q) : Qtrunc (Qred q) = Qtrunc q.
Proof. apply Qtrunc_proper, Qred_correct. Qed.

Lemma Qis_zero_false (q : Q) : ~ q == 0 -> Qis_zero q = false.
Proof.
  intros H. unfold Qis_zero. apply Z.eqb_neq. intros E. apply H.
  unfold Qeq. rewrite E. reflexivity.
Qed.

Lemma Qis_zero_inject_Z (z : Z) : Qis_zero (inject_Z z) = (z =? 0).
Proof. reflexivity. Qed.

Lemma is_int_zero_PInt (m : Z) : is_int_zero (PInt m) = (m =? 0).
Proof. now destruct m. Qed.

Lemma is_int_zero_ne (m : Z) : m <> 0 -> is_int_zero (PInt m) = false.
Proof. intros H. rewrite is_int_zero_PInt. now apply Z.eqb_neq. Qed.

(** ** Running a method *)

Lemma bind_Ok {A B} (m : M A) (k : A -> M B) w a w' :
  m w = Ok a w' -> bind m k w = k a w'.
Proof. intros E. unfold bind. now rewrite E. Qed.

Lemma bind_Raise {A B} (m : M A) (k : A -> M B) w e w' :
  m w = Raise e w' -> bind m k w = Raise e w'.
Proof. intros E. unfold bind. now rewrite E. Qed.

Lemma getattr_Some c name w v :
  attrs w !! name = Some v -> getattr c name w = Ok v w.
Proof. intros E. unfold getattr. now rewrite E. Qed.

Lemma getattr_Ok_inv c name w v w' :
  getattr c name w = Ok v w' -> w' = w.
Proof.
  unfold getattr. destruct (attrs w !! name); [congruence|].
  destruct (class_attr c name); congruence.
Qed.

Lemma getattr_Raise_inv c name w e w' :
  getattr c name w = Raise e w' -> e = AttributeError /\ w' = w.
Proof.
  unfold getattr. destruct (attrs w !! name); [congruence|].
  destruct (class_attr c name); [congruence|]. intros [= <- <-]. now split.
Qed.

(** ** The percentage *)

Lemma get_current_value_Raise_inv c w e w' :
  get_current_value c w = Raise e w' -> e = AttributeError.
Proof. destruct c; intros H; now apply getattr_Raise_inv in H. Qed.

Lemma get_max_value_Ok_inv c w v w' : get_max_value c w = Ok v w' -> w' = w.
Proof. destruct c; apply getattr_Ok_inv. Qed.

Lemma get_current_value_Ok_inv c w v w' :
  get_current_value c w = Ok v w' -> w' = w.
Proof. destruct c; apply getattr_Ok_inv. Qed.

Lemma get_percentage_zero c w :
  get_max_value c w = Ok (PInt 0) w ->
  get_percentage c w = Ok (PFloat 100) w.
Proof.
  intros Hm. unfold get_percentage. rewrite (bind_Ok _ _ _ _ _ Hm). reflexivity.
Qed.

Lemma get_percentage_nonzero c w m v n :
  m <> 0 ->
  get_max_value c w = Ok (PInt m) w ->
  get_current_value c w = Ok v w ->
  as_num v = Some n ->
  get_percentage c w = Ok (mkfloat (num_Q n * 100 / inject_Z m)) w.
Proof.
  intros Hne Hm Hv Hn. unfold get_percentage.
  rewrite (bind_Ok _ _ _ _ _ Hm).
  rewrite (is_int_zero_ne m Hne).
  rewrite (bind_Ok _ _ _ _ _ Hv).
  assert (py_mul v (PFloat 100) = Val (mkfloat (num_Q n * 100))) as Hmul.
  { unfold py_mul, arith. rewrite Hn. destruct n; reflexivity. }
  rewrite Hmul. unfold lift at 1. unfold bind at 1.
  rewrite (bind_Ok _ _ _ _ _ Hm).
  unfold py_div, mkfloat at 1. cbn [as_num num_Q].
  rewrite Qis_zero_inject_Z. apply Z.eqb_neq in Hne. rewrite Hne.
  cbn [lift]. f_equal. apply mkfloat_proper. now rewrite Qred_correct.
Qed.

(** C1.  With [max_value] an integer, [get_percentage] of any of the four
    classes never raises [ZeroDivisionError]; it answers exactly [100.0] when
    [max_value] is 0, whatever the current value is (even unset), and
    [current_value * 100 / max_value] when [max_value] is positive and the
    current value is a number. *)
Theorem get_percentage_spec (c : cls) (w : world) (m : Z) :
  get_max_value c w = Ok (PInt m) w ->
  raised (get_percentage c w) <> Some ZeroDivisionError /\
  (m = 0 -> get_percentage c w = Ok (PFloat 100) w) /\
  (0 < m -> forall v n,
     get_current_value c w = Ok v w -> as_num v = Some n ->
     get_percentage c w = Ok (mkfloat (num_Q n * 100 / inject_Z m)) w).
Proof.
  intros Hm. split; [|split].
  - destruct (Z.eq_dec m 0) as [->|Hne].
    { now rewrite get_percentage_zero. }
    destruct (get_current_value c w) as [v w1|e w1] eqn:Hv.
    + apply get_current_value_Ok_inv in Hv as Hw. subst w1.
      destruct (as_num v) as [n|] eqn:Hn.
      * now rewrite (get_percentage_nonzero c w m v n).
      * unfold get_percentage. rewrite (bind_Ok _ _ _ _ _ Hm).
        rewrite (is_int_zero_ne m Hne), (bind_Ok _ _ _ _ _ Hv).
        unfold py_mul, arith. rewrite Hn. discriminate.
    + unfold get_percentage. rewrite (bind_Ok _ _ _ _ _ Hm).
      rewrite (is_int_zero_ne m Hne), (bind_Raise _ _ _ _ _ Hv).
      apply get_current_value_Raise_inv in Hv as ->. discriminate.
  - intros ->. now apply get_percentage_zero.
  - intros Hpos v n Hv Hn. apply (get_percentage_nonzero c w m v n); auto. lia.
Qed.

Lemma get_percentage_spec_witness :
  get_percentage Observer (tracker_at_2 8 epoch)
  = Ok (mkfloat (num_Q (NInt 2) * 100 / inject_Z 8)) (tracker_at_2 8 epoch) /\
  get_percentage Observer (tracker_at_2 0 epoch) = Ok (PFloat 100) (tracker_at_2 0 epoch) /\
  raised (get_percentage Observer (tracker_at_2 0 epoch)) <> Some ZeroDivisionError.
Proof.
  assert (forall m, get_max_value Observer (tracker_at_2 m epoch)
                    = Ok (PInt m) (tracker_at_2 m epoch)) as Hm.
  { intros m. apply getattr_Some. vm_compute. reflexivity. }
  assert (forall m, get_current_value Observer (tracker_at_2 m epoch)
                    = Ok (PInt 2) (tracker_at_2 m epoch)) as Hc.
  { intros m. apply getattr_Some. vm_compute. reflexivity. }
  destruct (get_percentage_spec Observer (tracker_at_2 8 epoch) 8 (Hm 8))
    as (_ & _ & Hpos).
  destruct (get_percentage_spec Observer (tracker_at_2 0 epoch) 0 (Hm 0))
    as (Hsafe & Hzero & _).
  split; [|split].
  - apply (Hpos ltac:(lia) (PInt 2) (NInt 2) (Hc 8) eq_refl).
  - exact (Hzero eq_refl).
  - exact Hsafe.
Defined.

(** ** Stepping through a method body *)

Lemma bind_ret {A B} (a : A) (k : A -> M B) w : bind (ret a) k w = k a w.
Proof. reflexivity. Qed.

Lemma bind_setattr {B} name v (k : unit -> M B) w :
  bind (setattr name v) k w = k tt (with_attrs w (<[name := v]> (attrs w))).
Proof. reflexivity. Qed.

Lemma bind_time_time {B} (k : pyval -> M B) w :
  bind time_time k w = k (mkfloat (clock w (ticks w))) (tick w).
Proof. reflexivity. Qed.

Lemma bind_getattr {B} c name v (k : pyval -> M B) w :
  attrs w !! name = Some v -> bind (getattr c name) k w = k v w.
Proof. intros E. apply bind_Ok. now apply getattr_Some. Qed.

Lemma bind_lift_Val {A B} (a : A) (k : A -> M B) w :
  bind (lift (Val a)) k w = k a w.
Proof. reflexivity. Qed.

Lemma bind_logging_info {B} f args (k : unit -> M B) w :
  bind (logging_info f args) k w = k tt (with_log w (LogInfo f args :: log w)).
Proof. reflexivity. Qed.

Lemma bind_fd_write {B} e (k : unit -> M B) w :
  bind (fd_write e) k w = k tt (with_fd w (e :: fd w)).
Proof. reflexivity. Qed.

Lemma bind_open_w {B} (k : unit -> M B) w :
  bind open_w k w = k tt (with_file w (Some FEmpty) (writes w)).
Proof. reflexivity. Qed.

Lemma bind_f_write {B} d (k : unit -> M B) w :
  bind (f_write d) k w = k tt (with_file w (Some (FDoc d)) (S (writes w))).
Proof. reflexivity. Qed.

Lemma bind_assoc {A B C} (m : M A) (k : A -> M B) (h : B -> M C) w :
  bind (bind m k) h w = bind m (fun a => bind (k a) h) w.
Proof. unfold bind. now destruct (m w). Qed.

(** Looking an attribute up behind a stack of assignments. *)
Ltac attr :=
  cbn [attrs with_attrs tick with_log with_file with_fd];
  repeat (rewrite lookup_insert_ne by discriminate);
  first [ apply lookup_insert_eq | eassumption ].

Ltac wsimpl :=
  cbn [attrs clock ticks log file writes fd
       with_attrs tick with_log with_file with_fd].

Ltac mstep :=
  first
    [ rewrite bind_setattr
    | rewrite bind_time_time
    | rewrite bind_lift_Val
    | rewrite bind_logging_info
    | rewrite bind_fd_write
    | rewrite bind_open_w
    | rewrite bind_f_write
    | rewrite bind_ret
    | erewrite bind_getattr by attr ].

Ltac msteps := repeat first [ mstep | rewrite bind_assoc ].

(** ** Comparisons and arithmetic on integers and floats *)

Lemma Qcompare_inject_Z (a b : Z) : Qcompare (inject_Z a) (inject_Z b) = (a ?= b).
Proof. unfold Qcompare. cbn. now rewrite !Z.mul_1_r. Qed.

Lemma py_lt_int (a b : Z) : py_lt (PInt a) (PInt b) = (a <? b).
Proof.
  unfold py_lt, py_cmp. cbn [as_num num_Q]. rewrite Qcompare_inject_Z.
  unfold Z.ltb. now destruct (a ?= b).
Qed.

Lemma py_gt_int (a b : Z) : py_gt (PInt a) (PInt b) = (b <? a).
Proof.
  unfold py_gt, py_cmp. cbn [as_num num_Q]. rewrite Qcompare_inject_Z.
  unfold Z.ltb. rewrite (Z.compare_antisym a b). now destruct (a ?= b).
Qed.

Lemma py_sub_int (a b : Z) : py_sub (PInt a) (PInt b) = Val (PInt (a - b)).
Proof. reflexivity. Qed.

Lemma py_sub_float (q : Q) (v : pyval) (n : num) :
  as_num v = Some n -> py_sub (mkfloat q) v = Val (mkfloat (q - num_Q n)).
Proof.
  intros E. unfold py_sub, arith. cbn [mkfloat as_num]. rewrite E.
  cbn [num_Q]. f_equal. apply mkfloat_proper. now rewrite Qred_correct.
Qed.

Lemma Qcompare_Qred_l (p q : Q) : Qcompare (Qred p) q = Qcompare p q.
Proof. apply Qcompare_comp; [apply Qred_correct | reflexivity]. Qed.

Lemma Qcompare_Qred_r (p q : Q) : Qcompare p (Qred q) = Qcompare p q.
Proof. apply Qcompare_comp; [reflexivity | apply Qred_correct]. Qed.

Lemma Qle_bool_compare (p q : Q) :
  Qle_bool p q = match Qcompare p q with Gt => false | _ => true end.
Proof.
  apply eq_true_iff_eq. rewrite Qle_bool_iff, Qle_alt.
  destruct (Qcompare p q); split; congruence.
Qed.

Lemma py_le_float_int (q : Q) (z : Z) :
  py_le (mkfloat q) (PInt z) = Qle_bool q (inject_Z z).
Proof.
  unfold py_le, py_cmp. cbn [mkfloat as_num num_Q].
  now rewrite Qcompare_Qred_l, Qle_bool_compare.
Qed.

Lemma py_le_float_float (p q : Q) : py_le (mkfloat p) (mkfloat q) = Qle_bool p q.
Proof.
  unfold py_le, py_cmp. cbn [mkfloat as_num num_Q].
  now rewrite Qcompare_Qred_l, Qcompare_Qred_r, Qle_bool_compare.
Qed.

Lemma py_gt_int_float (z : Z) (q : Q) :
  py_gt (PInt z) (mkfloat q) = negb (Qle_bool (inject_Z z) q).
Proof.
  unfold py_gt, py_cmp. cbn [mkfloat as_num num_Q].
  rewrite Qcompare_Qred_r, Qle_bool_compare.
  now destruct (Qcompare (inject_Z z) q).
Qed.

(** ** The staircase *)

Lemma staircase_int c w v lu :
  attrs w !! "last_update" = Some (PInt lu) ->
  staircase c (PInt v) w = Ok (PBool (crossed v lu)) w.
Proof.
  intros Hlu. unfold staircase, crossed, threshold. rewrite !py_lt_int.
  destruct (v <? 100); [|destruct (v <? 500)];
    (erewrite bind_getattr by eassumption);
    rewrite py_sub_int, bind_lift_Val, py_gt_int; reflexivity.
Qed.

(** ** The status file sink, one update at a time *)

Lemma get_percentage_int c w cur m :
  get_current_value c w = Ok (PInt cur) w ->
  get_max_value c w = Ok (PInt m) w ->
  get_percentage c w = Ok (mkfloat (percent_of cur m)) w.
Proof.
  intros Hc Hm. unfold percent_of. destruct (Z.eqb_spec m 0) as [->|Hne].
  - now apply get_percentage_zero.
  - now apply (get_percentage_nonzero c w m (PInt cur) (NInt cur)).
Qed.

Lemma JSObserver_need_update_run w cur lut nl ms lu :
  attrs w !! "_current_value" = Some (PInt cur) ->
  attrs w !! "last_update_time" = Some lut -> as_num lut = Some nl ->
  attrs w !! "minrefresh" = Some (PInt ms) ->
  attrs w !! "last_update" = Some (PInt lu) ->
  JSObserver_need_update JSObserver w =
  Ok (PBool (time_floor_passed (clock w (ticks w)) (num_Q nl) ms && crossed cur lu))
     (tick w).
Proof.
  intros Hcur Hlut Hnl Hms Hlu.
  unfold JSObserver_need_update, get_current_value.
  repeat mstep. rewrite (py_sub_float _ lut nl Hnl). repeat mstep.
  unfold py_floordiv. cbn [as_num Z.eqb]. repeat mstep.
  rewrite py_le_float_int. unfold time_floor_passed.
  destruct (Qle_bool _ _); cbn [negb andb].
  - reflexivity.
  - now apply staircase_int.
Qed.

Lemma fmt_d_py_max (q : Q) (ms : Z) :
  fmt_d (py_max (mkfloat (1500 * q)) (PInt ms)) =
  Val (Qtrunc (Qmax (1500 * q) (inject_Z ms))).
Proof.
  unfold py_max. rewrite py_gt_int_float.
  destruct (Qle_bool (inject_Z ms) (1500 * q)) eqn:E; cbn [negb].
  - apply Qle_bool_iff in E. unfold mkfloat, fmt_d. cbn [as_num].
    f_equal. rewrite Qtrunc_Qred. apply Qtrunc_proper.
    symmetry. now apply Q.max_l.
  - unfold fmt_d. cbn [as_num]. f_equal.
    rewrite <- (Qtrunc_inject_Z ms) at 1. apply Qtrunc_proper.
    symmetry. apply Q.max_r. apply Qlt_le_weak, Qnot_le_lt.
    intros H. apply Qle_bool_iff in H. congruence.
Qed.

Lemma JSObserver_update_run w v lut nl ms lu m :
  attrs w !! "last_update_time" = Some lut -> as_num lut = Some nl ->
  attrs w !! "minrefresh" = Some (PInt ms) ->
  attrs w !! "last_update" = Some (PInt lu) ->
  attrs w !! "_max_value" = Some (PInt m) ->
  update JSObserver (PInt v) w =
  if time_floor_passed (clock w (ticks w)) (num_Q nl) ms && crossed v lu then
    Ok (PBool true)
       {| attrs := <["last_update" := PInt v]>
                     (<["last_update_time" := mkfloat (clock w (S (S (ticks w))))]>
                        (<["_current_value" := PInt v]> (attrs w)));
          clock := clock w; ticks := S (S (S (ticks w))); log := log w;
          file := Some (FDoc {| doc_message := rendered_message v m;
                                doc_update := JInt (suggested_poll
                                  (clock w (S (ticks w))) (num_Q nl) ms) |});
          writes := S (writes w); fd := fd w |}
  else
    Ok (PBool false) (tick (with_attrs w (<["_current_value" := PInt v]> (attrs w)))).
Proof.
  intros Hlut Hnl Hms Hlu Hm.
  unfold update, JSObserver_update. mstep.
  erewrite bind_Ok; cycle 1.
  { apply (JSObserver_need_update_run _ v lut nl ms lu); attr. }
  cbn [ticks clock with_attrs truthy].
  destruct (time_floor_passed _ _ _ && crossed v lu); [|reflexivity].
  repeat mstep. rewrite (py_sub_float _ lut nl Hnl). mstep. wsimpl.
  assert (py_mul (PInt 1500) (mkfloat (clock w (S (ticks w)) - num_Q nl))
          = Val (mkfloat (1500 * (clock w (S (ticks w)) - num_Q nl)))) as ->.
  { unfold py_mul, arith. cbn [mkfloat as_num num_Q]. f_equal.
    apply mkfloat_proper. now rewrite Qred_correct. }
  repeat mstep. unfold get_current_value, get_max_value. repeat mstep.
  erewrite bind_Ok; cycle 1.
  { apply (get_percentage_int _ _ v m); apply getattr_Some; attr. }
  cbn [fmt_d as_num]. repeat mstep.
  cbn [mkfloat fmt_d as_num]. mstep.
  change (PFloat (Qred (1500 * (clock w (S (ticks w)) - num_Q nl))))
    with (mkfloat (1500 * (clock w (S (ticks w)) - num_Q nl))).
  rewrite fmt_d_py_max. repeat mstep.
  unfold ret, rendered_message, suggested_poll. rewrite Qtrunc_Qred.
  reflexivity.
Qed.

Lemma time_floor_passed_seconds (now lut : Q) (s : Z) :
  time_floor_passed now lut (1000 * s) = true <->
  (inject_Z (1000 * s) < 1000 * (now - lut))%Q.
Proof.
  unfold time_floor_passed.
  replace (1000 * s / 1000) with s by (symmetry; rewrite Z.mul_comm; now apply Z.div_mul).
  rewrite negb_true_iff, <- not_true_iff_false, Qle_bool_iff, inject_Z_mult.
  change (inject_Z 1000) with 1000%Q. split.
  - intros H. apply Qnot_le_lt in H. lra.
  - intros H H'. lra.
Qed.

Lemma Qtrunc_ge (z : Z) (q : Q) : (inject_Z z <= q)%Q -> z <= Qtrunc q.
Proof.
  intros H. unfold Qtrunc. destruct (Qle_bool 0 q).
  - rewrite <- (Qfloor_Z z). now apply Qfloor_resp_le.
  - rewrite <- (Qceiling_Z z). now apply Qceiling_resp_le.
Qed.


Lemma JSObserver__init___run (s : Z) (w : world) :
  JSObserver__init__ (PInt s) w =
  Ok tt {| attrs := <["minrefresh" := PInt (1000 * s)]>
                      (<["_current_value" := PInt (-1)]>
                         (<["last_update_time" := PInt (-1)]>
                            (<["last_update" := PInt (-11)]> (attrs w))));
           clock := clock w; ticks := ticks w; log := log w;
           file := Some (FDoc {| doc_message := "Render in progress";
                                 doc_update := JInt (1000 * s) |});
           writes := S (writes w); fd := fd w |}.
Proof.
  unfold JSObserver__init__. repeat mstep.
  change (py_mul (PInt 1000) (PInt s)) with (Val (PInt (1000 * s))).
  repeat mstep. reflexivity.
Qed.

Lemma JSObserver_start_run (mr : pyval) (m : Z) (w : world) :
  attrs w !! "minrefresh" = Some mr ->
  JSObserver_start JSObserver (PInt m) w =
  Ok PNone {| attrs := <["_max_value" := PInt m]>
                         (<["start_time" := mkfloat (clock w (ticks w))]> (attrs w));
              clock := clock w; ticks := S (ticks w); log := log w;
              file := Some (FDoc {| doc_message := "Rendering " +:+ pretty m +:+ " tiles";
                                    doc_update := fmt_s mr |});
              writes := S (writes w); fd := fd w |}.
Proof.
  intros Hmr. unfold JSObserver_start. repeat mstep.
  cbn [fmt_d as_num]. repeat mstep. reflexivity.
Qed.

(** ** Sample sinks *)

Lemma Ok_final {A} (o : outcome A) (a : A) : value o = Some a -> o = Ok a (final o).
Proof. destruct o; cbn; congruence. Qed.

Lemma js_started_clock clk : clock (js_started clk) = clk.
Proof.
  unfold js_started.
  rewrite (bind_Ok _ _ _ _ _ (JSObserver__init___run 5 (fresh clk))).
  erewrite JSObserver_start_run by attr. reflexivity.
Qed.

Lemma js_started_attrs clk :
  attrs (js_started clk) !! "minrefresh" = Some (PInt (1000 * 5)) /\
  attrs (js_started clk) !! "last_update_time" = Some (PInt (-1)) /\
  attrs (js_started clk) !! "last_update" = Some (PInt (-11)) /\
  attrs (js_started clk) !! "_max_value" = Some (PInt 100).
Proof. repeat split; vm_compute; reflexivity. Qed.

Lemma crossed_small (v2 v1 : Z) : v2 - v1 > 10 -> v2 < 100 -> crossed v2 v1 = true.
Proof.
  intros Hd Hb. unfold crossed, threshold.
  destruct (Z.ltb_spec v2 100); [|lia]. apply Z.ltb_lt. lia.
Qed.

(** ** The time floor for any numeric [minrefresh] *)

Lemma Qfloor_div_1000 (z : Z) : Qfloor (inject_Z z / 1000) = z / 1000.
Proof. unfold Qfloor, Qdiv, Qmult, Qinv, inject_Z. cbn. now rewrite Z.mul_1_r. Qed.

(** [minrefresh // 1000] is the whole seconds of [minrefresh], as an integer
    or as a float, and compares like them. *)
Lemma py_floordiv_1000 (mr : pyval) (nm : num) :
  as_num mr = Some nm ->
  exists fl,
    py_floordiv mr (PInt 1000) = Val fl /\
    forall d, py_le (mkfloat d) fl = Qle_bool d (inject_Z (Qfloor (num_Q nm / 1000))).
Proof.
  intros Hnm. unfold py_floordiv. rewrite Hnm. cbn [as_num]. destruct nm as [z|q].
  - exists (PInt (z / 1000)). split; [reflexivity|].
    intros d. cbn [num_Q]. now rewrite py_le_float_int, Qfloor_div_1000.
  - exists (mkfloat (inject_Z (Qfloor (q / 1000)))). split; [reflexivity|].
    intros d. cbn [num_Q]. apply py_le_float_float.
Qed.

Lemma fmt_d_num (v : pyval) (n : num) : as_num v = Some n -> exists z, fmt_d v = Val z.
Proof. intros E. unfold fmt_d. rewrite E. destruct n; eexists; reflexivity. Qed.

Lemma JSObserver_need_update_num w cur lut nl mr nm lu :
  attrs w !! "_current_value" = Some (PInt cur) ->
  attrs w !! "last_update_time" = Some lut -> as_num lut = Some nl ->
  attrs w !! "minrefresh" = Some mr -> as_num mr = Some nm ->
  attrs w !! "last_update" = Some (PInt lu) ->
  JSObserver_need_update JSObserver w =
  Ok (PBool (negb (Qle_bool (clock w (ticks w) - num_Q nl)
                     (inject_Z (Qfloor (num_Q nm / 1000))))
             && crossed cur lu))
     (tick w).
Proof.
  intros Hcur Hlut Hnl Hmr Hnm Hlu.
  destruct (py_floordiv_1000 mr nm Hnm) as (fl & Hfl & Hle).
  unfold JSObserver_need_update, get_current_value.
  repeat mstep. rewrite (py_sub_float _ lut nl Hnl). repeat mstep.
  rewrite Hfl. mstep. rewrite Hle.
  destruct (Qle_bool _ _); cbn [negb andb].
  - reflexivity.
  - now apply staircase_int.
Qed.

Lemma JSObserver_update_num w v lut nl mr nm lu m :
  attrs w !! "last_update_time" = Some lut -> as_num lut = Some nl ->
  attrs w !! "minrefresh" = Some mr -> as_num mr = Some nm ->
  attrs w !! "last_update" = Some (PInt lu) ->
  attrs w !! "_max_value" = Some (PInt m) ->
  exists z,
    update JSObserver (PInt v) w =
    if negb (Qle_bool (clock w (ticks w) - num_Q nl)
               (inject_Z (Qfloor (num_Q nm / 1000))))
       && crossed v lu
    then
      Ok (PBool true)
         {| attrs := <["last_update" := PInt v]>
                       (<["last_update_time" := mkfloat (clock w (S (S (ticks w))))]>
                          (<["_current_value" := PInt v]> (attrs w)));
            clock := clock w; ticks := S (S (S (ticks w))); log := log w;
            file := Some (FDoc {| doc_message := rendered_message v m;
                                  doc_update := JInt z |});
            writes := S (writes w); fd := fd w |}
    else
      Ok (PBool false) (tick (with_attrs w (<["_current_value" := PInt v]> (attrs w)))).
Proof.
  intros Hlut Hnl Hmr Hnm Hlu Hm.
  assert (exists x, py_mul (PInt 1500) (mkfloat (clock w (S (ticks w)) - num_Q nl))
                    = Val (mkfloat x)) as (x & Hx).
  { eexists. unfold py_mul, arith. cbn [mkfloat as_num num_Q]. reflexivity. }
  assert (exists z, fmt_d (py_max (mkfloat x) mr) = Val z) as (z & Hz).
  { unfold py_max. destruct (py_gt mr (mkfloat x)).
    - now apply (fmt_d_num mr nm).
    - eexists. reflexivity. }
  exists z.
  unfold update, JSObserver_update. mstep.
  erewrite bind_Ok; cycle 1.
  { apply (JSObserver_need_update_num _ v lut nl mr nm lu); first [attr | assumption]. }
  cbn [ticks clock with_attrs truthy].
  destruct (negb _ && crossed v lu); [|reflexivity].
  repeat mstep. rewrite (py_sub_float _ lut nl Hnl). mstep. wsimpl.
  rewrite Hx.
  repeat mstep. unfold get_current_value, get_max_value. repeat mstep.
  erewrite bind_Ok; cycle 1.
  { apply (get_percentage_int _ _ v m); apply getattr_Some; attr. }
  cbn [fmt_d as_num]. repeat mstep.
  change (fmt_d (mkfloat (percent_of v m))) with (Val (Qtrunc (Qred (percent_of v m)))).
  mstep. rewrite Hz. repeat mstep.
  unfold ret, rendered_message. rewrite Qtrunc_Qred.
  reflexivity.
Qed.

Lemma floor_gate_lt (x e : Q) :
  negb (Qle_bool e (inject_Z (Qfloor x))) = true <-> (inject_Z (Qfloor x) < e)%Q.
Proof.
  rewrite negb_true_iff, <- not_true_iff_false, Qle_bool_iff. split.
  - apply Qnot_le_lt.
  - intros H H'. lra.
Qed.

Lemma Qfloor_whole_seconds (q : Q) (s : Z) :
  q == inject_Z (1000 * s) -> Qfloor (q / 1000) = s.
Proof.
  intros H. rewrite <- (Qfloor_Z s). apply Qfloor_comp.
  rewrite H, inject_Z_mult. change (inject_Z 1000) with 1000%Q. field.
Qed.

(** C2, as amended.  An update of the status file sink writes the file
    exactly when both gates pass: more than [minrefresh // 1000] whole
    seconds have passed since [last_update_time], and the staircase threshold
    is crossed.  More than [minrefresh] milliseconds passed always opens the
    time gate, and for a [minrefresh] of a whole number of seconds the gate
    opens only then.  With [minrefresh = 5000]: two updates whose clock
    readings are at most 100 ms apart never write twice, whatever their
    values; an update 6 s after an emitting one, more than 10 above it and
    below 100, writes again. *)
Theorem JSObserver_update_gates
    (w : world) (lut mr : pyval) (nl nm : num) (lu m : Z) :
  attrs w !! "minrefresh" = Some mr -> as_num mr = Some nm ->
  attrs w !! "last_update_time" = Some lut -> as_num lut = Some nl ->
  attrs w !! "last_update" = Some (PInt lu) ->
  attrs w !! "_max_value" = Some (PInt m) ->
  (forall v, exists b w1,
      update JSObserver (PInt v) w = Ok (PBool b) w1 /\
      writes w1 = (writes w + (if b then 1 else 0))%nat /\
      (b = true <->
       (inject_Z (Qfloor (num_Q nm / 1000)) < clock w (ticks w) - num_Q nl)%Q /\
       crossed v lu = true) /\
      ((num_Q nm < 1000 * (clock w (ticks w) - num_Q nl))%Q ->
       crossed v lu = true -> b = true) /\
      (forall s : Z, num_Q nm == inject_Z (1000 * s) ->
       b = true -> (num_Q nm < 1000 * (clock w (ticks w) - num_Q nl))%Q)) /\
  (num_Q nm == 5000 ->
   (forall i j, (i <= j)%nat -> (clock w i <= clock w j)%Q) ->
   forall v1 v2 r1 w1 r2 w2,
     update JSObserver (PInt v1) w = Ok r1 w1 ->
     (clock w (ticks w1) - clock w (ticks w) <= 1 # 10)%Q ->
     update JSObserver (PInt v2) w1 = Ok r2 w2 ->
     (writes w2 <= writes w + 1)%nat) /\
  (num_Q nm == 5000 ->
   forall v1 v2 w1,
     update JSObserver (PInt v1) w = Ok (PBool true) w1 ->
     (clock w (ticks w1) - clock w (ticks w1 - 1) == 6)%Q ->
     v2 - v1 > 10 -> v2 < 100 ->
     exists w2, update JSObserver (PInt v2) w1 = Ok (PBool true) w2 /\
                writes w2 = (writes w + 2)%nat).
Proof.
  intros Hmr Hnm Hlut Hnl Hlu Hm. split; [|split].
  - intros v.
    destruct (JSObserver_update_num w v lut nl mr nm lu m) as (z & ->); try assumption.
    pose proof (floor_gate_lt (num_Q nm / 1000) (clock w (ticks w) - num_Q nl)) as Hg.
    pose proof (Qfloor_le (num_Q nm / 1000)) as Hfl.
    assert (forall s : Z, num_Q nm == inject_Z (1000 * s) ->
            (inject_Z (Qfloor (num_Q nm / 1000)) < clock w (ticks w) - num_Q nl)%Q ->
            (num_Q nm < 1000 * (clock w (ticks w) - num_Q nl))%Q) as Hws.
    { intros s Hs. rewrite (Qfloor_whole_seconds _ s Hs).
      rewrite Hs, inject_Z_mult. change (inject_Z 1000) with 1000%Q. intros; lra. }
    assert ((num_Q nm < 1000 * (clock w (ticks w) - num_Q nl))%Q ->
            (inject_Z (Qfloor (num_Q nm / 1000)) < clock w (ticks w) - num_Q nl)%Q) as Hms.
    { intros Hlt. apply Qle_lt_trans with (num_Q nm / 1000)%Q; [exact Hfl|].
      apply Qlt_shift_div_r; [reflexivity|]. lra. }
    destruct (negb _) eqn:Ht; destruct (crossed v lu); cbn [andb];
      eexists _, _; (split; [reflexivity|]); cbn [writes tick with_attrs];
      (split; [lia|]); (split; [|split]).
    all: intuition first [congruence | eauto].
  - intros H5 Hmono v1 v2 r1 w1 r2 w2.
    assert (Qfloor (num_Q nm / 1000) = 5) as Hfive.
    { now apply Qfloor_whole_seconds. }
    destruct (JSObserver_update_num w v1 lut nl mr nm lu m) as (z1 & ->); try assumption.
    destruct (negb _ && crossed v1 lu); intros [= <- <-]; wsimpl.
    + intros Hclose.
      match goal with |- update _ _ ?w1 = _ -> _ =>
        destruct (JSObserver_update_num w1 v2
                    (mkfloat (clock w (S (S (ticks w)))))
                    (NFloat (Qred (clock w (S (S (ticks w)))))) mr nm v1 m)
          as (z2 & ->) end;
        try (first [attr | reflexivity | assumption]).
      wsimpl. cbn [num_Q]. rewrite Hfive.
      assert (negb (Qle_bool (clock w (S (S (S (ticks w))))
                              - Qred (clock w (S (S (ticks w))))) (inject_Z 5)) = false) as ->.
      { apply negb_false_iff, Qle_bool_iff. rewrite Qred_correct.
        change (inject_Z 5) with 5%Q.
        pose proof (Hmono (ticks w) (S (S (ticks w))) ltac:(lia)). lra. }
      cbn [andb]. intros [= <- <-]. cbn [writes tick with_attrs]. lia.
    + intros _.
      match goal with |- update _ _ ?w1 = _ -> _ =>
        destruct (JSObserver_update_num w1 v2 lut nl mr nm lu m) as (z2 & ->) end;
        try (first [attr | assumption]).
      destruct (_ && _); intros [= <- <-]; cbn [writes tick with_attrs]; lia.
  - intros H5 v1 v2 w1.
    assert (Qfloor (num_Q nm / 1000) = 5) as Hfive.
    { now apply Qfloor_whole_seconds. }
    destruct (JSObserver_update_num w v1 lut nl mr nm lu m) as (z1 & ->); try assumption.
    destruct (negb _ && crossed v1 lu); [|discriminate].
    intros [= <-]. wsimpl. cbn [Nat.sub]. intros Hsix Hd Hb.
    match goal with |- exists _, update _ _ ?w1 = _ /\ _ =>
      destruct (JSObserver_update_num w1 v2
                  (mkfloat (clock w (S (S (ticks w)))))
                  (NFloat (Qred (clock w (S (S (ticks w)))))) mr nm v1 m)
        as (z2 & ->) end;
      try (first [attr | reflexivity | assumption]).
    wsimpl. cbn [num_Q]. rewrite Hfive.
    assert (negb (Qle_bool (clock w (S (S (S (ticks w))))
                            - Qred (clock w (S (S (ticks w))))) (inject_Z 5)) = true) as ->.
    { apply negb_true_iff, not_true_iff_false. rewrite Qle_bool_iff, Qred_correct.
      change (inject_Z 5) with 5%Q. lra. }
    rewrite (crossed_small v2 v1 Hd Hb). cbn [andb].
    eexists. split; [reflexivity|]. cbn [writes]. lia.
Qed.

Lemma JSObserver_update_gates_witness :
  (exists b w1,
      update JSObserver (PInt 0) (js_started epoch_fast) = Ok (PBool b) w1 /\
      writes w1 = (writes (js_started epoch_fast) + (if b then 1 else 0))%nat /\
      (b = true <->
       (inject_Z (Qfloor (num_Q (NInt (1000 * 5)) / 1000))
        < clock (js_started epoch_fast) (ticks (js_started epoch_fast))
          - num_Q (NInt (-1)))%Q /\
       crossed 0 (-11) = true) /\
      ((num_Q (NInt (1000 * 5))
        < 1000 * (clock (js_started epoch_fast) (ticks (js_started epoch_fast))
                  - num_Q (NInt (-1))))%Q ->
       crossed 0 (-11) = true -> b = true) /\
      (forall s : Z, num_Q (NInt (1000 * 5)) == inject_Z (1000 * s) ->
       b = true ->
       (num_Q (NInt (1000 * 5))
        < 1000 * (clock (js_started epoch_fast) (ticks (js_started epoch_fast))
                  - num_Q (NInt (-1))))%Q)) /\
  (writes (final (update JSObserver (PInt 50)
                    (final (update JSObserver (PInt 0) (js_started epoch_fast)))))
   <= writes (js_started epoch_fast) + 1)%nat /\
  (exists w2,
      update JSObserver (PInt 11)
        (final (update JSObserver (PInt 0) (js_started epoch_slow))) =
      Ok (PBool true) w2 /\
      writes w2 = (writes (js_started epoch_slow) + 2)%nat).
Proof.
  destruct (js_started_attrs epoch_fast) as (F1 & F2 & F3 & F4).
  destruct (js_started_attrs epoch_slow) as (S1 & S2 & S3 & S4).
  destruct (JSObserver_update_gates (js_started epoch_fast) (PInt (-1)) (PInt (1000 * 5))
              (NInt (-1)) (NInt (1000 * 5)) (-11) 100 F1 eq_refl F2 eq_refl F3 F4)
    as (Hgate & Hfast & _).
  destruct (JSObserver_update_gates (js_started epoch_slow) (PInt (-1)) (PInt (1000 * 5))
              (NInt (-1)) (NInt (1000 * 5)) (-11) 100 S1 eq_refl S2 eq_refl S3 S4)
    as (_ & _ & Hslow).
  split; [exact (Hgate 0)|]. split.
  - apply (Hfast ltac:(reflexivity)) with (v1 := 0) (v2 := 50)
      (r1 := PBool true) (r2 := PBool false)
      (w1 := final (update JSObserver (PInt 0) (js_started epoch_fast))).
    + intros i j Hij. rewrite js_started_clock. unfold epoch_fast.
      apply Qplus_le_r, Qmult_le_compat_r; [|discriminate].
      rewrite <- Zle_Qle. lia.
    + apply Ok_final. vm_compute. reflexivity.
    + vm_compute. discriminate.
    + apply Ok_final. vm_compute. reflexivity.
  - apply (Hslow ltac:(reflexivity) 0 11).
    + apply Ok_final. vm_compute. reflexivity.
    + vm_compute. reflexivity.
    + lia.
    + lia.
Defined.

(** C2 as stated fails on a sink configured with 2.5 seconds: [minrefresh]
    holds 2500 ms, the time gate is [2500.0 // 1000 = 2.0] seconds, and an
    update read 2.25 s after the last emission that crosses the staircase
    writes the file, fewer than [minrefresh] milliseconds after it. *)
Lemma JSObserver_fractional_floor_early :
  attrs (js_fractional_emitted epoch_steady) !! "minrefresh" = Some (PFloat 2500) /\
  attrs (js_fractional_emitted epoch_steady) !! "last_update_time"
  = Some (mkfloat (epoch_steady 3)) /\
  attrs (js_fractional_emitted epoch_steady) !! "last_update" = Some (PInt 0) /\
  ticks (js_fractional_emitted epoch_steady) = 4%nat /\
  (1000 * (epoch_steady 4 - epoch_steady 3) < 2500)%Q /\
  crossed 20 0 = true /\
  value (update JSObserver (PInt 20) (js_fractional_emitted epoch_steady))
  = Some (PBool true) /\
  writes (final (update JSObserver (PInt 20) (js_fractional_emitted epoch_steady)))
  = S (writes (js_fractional_emitted epoch_steady)).
Proof.
  repeat split; vm_compute; reflexivity.
Qed.




(** ** The status file sink before its first emission *)

(** The attributes an update of the status file sink reads, with the
    sentinel still in [last_update_time]. *)
Lemma JSObserver_quiet_update w v s lu m r w1 :
  attrs w !! "last_update_time" = Some (PInt (-1)) ->
  attrs w !! "minrefresh" = Some (PInt (1000 * s)) ->
  attrs w !! "last_update" = Some (PInt lu) ->
  attrs w !! "_max_value" = Some (PInt m) ->
  update JSObserver (PInt v) w = Ok r w1 ->
  r = PBool false ->
  attrs w1 !! "last_update_time" = Some (PInt (-1)) /\
  attrs w1 !! "minrefresh" = Some (PInt (1000 * s)) /\
  attrs w1 !! "last_update" = Some (PInt lu) /\
  attrs w1 !! "_max_value" = Some (PInt m) /\
  clock w1 = clock w.
Proof.
  intros Hlut Hms Hlu Hm.
  rewrite (JSObserver_update_run w v (PInt (-1)) (NInt (-1)) (1000 * s) lu m)
    by (assumption || reflexivity).
  destruct (_ && _); intros [= <- <-]; [discriminate|]. intros _.
  repeat split; attr.
Qed.

Lemma JSObserver_quiet_updates vs : forall w s lu m rs w1,
  attrs w !! "last_update_time" = Some (PInt (-1)) ->
  attrs w !! "minrefresh" = Some (PInt (1000 * s)) ->
  attrs w !! "last_update" = Some (PInt lu) ->
  attrs w !! "_max_value" = Some (PInt m) ->
  updates JSObserver (PInt <$> vs) w = Ok rs w1 ->
  Forall (fun r => r = PBool false) rs ->
  attrs w1 !! "last_update_time" = Some (PInt (-1)) /\
  attrs w1 !! "minrefresh" = Some (PInt (1000 * s)) /\
  attrs w1 !! "last_update" = Some (PInt lu) /\
  attrs w1 !! "_max_value" = Some (PInt m) /\
  clock w1 = clock w.
Proof.
  induction vs as [|v vs IH]; intros w s lu m rs w1 Hlut Hms Hlu Hm.
  - intros [= <- <-] _. auto.
  - cbn [fmap list_fmap updates]. unfold bind at 1.
    destruct (update JSObserver (PInt v) w) as [r w'|e w'] eqn:Hu; [|discriminate].
    unfold bind at 1.
    destruct (updates JSObserver _ w') as [rs' w''|e w''] eqn:Hus; [|discriminate].
    intros [= <- <-] Hall. inversion Hall as [|? ? Hr Hrs]; subst.
    destruct (JSObserver_quiet_update w v s lu m _ w' Hlut Hms Hlu Hm Hu eq_refl)
      as (H1 & H2 & H3 & H4 & H5).
    destruct (IH w' s lu m rs' w'' H1 H2 H3 H4 Hus Hrs) as (G1 & G2 & G3 & G4 & G5).
    repeat split; try assumption. congruence.
Qed.

(** C10.  Neither the constructor nor [start] nor an update that does not
    emit assigns [last_update_time]: at the first emitting update of a status
    file sink it still holds the sentinel [-1], so the [update] field written
    is [max(1500 * (now - (-1)), minrefresh)] (as [%d] prints it) for the
    absolute clock reading [now]; for a clock past 10^9 seconds that is at
    least 1.5 * 10^12 milliseconds. *)
Theorem JSObserver_first_emission_uses_sentinel
    (clk : nat -> Q) (s m v : Z) (vs : list Z) (rs : list pyval) (w1 w2 : world) :
  (JSObserver__init__ (PInt s) ;;
   JSObserver_start JSObserver (PInt m) ;;
   updates JSObserver (PInt <$> vs)) (fresh clk) = Ok rs w1 ->
  Forall (fun r => r = PBool false) rs ->
  update JSObserver (PInt v) w1 = Ok (PBool true) w2 ->
  attrs w1 !! "last_update_time" = Some (PInt (-1)) /\
  exists msg z,
    file w2 = Some (FDoc {| doc_message := msg; doc_update := JInt z |}) /\
    z = Qtrunc (Qmax (1500 * (clk (S (ticks w1)) - (-1))) (inject_Z (1000 * s))) /\
    z = suggested_poll (clk (S (ticks w1))) (-1) (1000 * s) /\
    ((1000000000 <= clk (S (ticks w1)))%Q -> 1500000000000 <= z).
Proof.
  rewrite (bind_Ok _ _ _ _ _ (JSObserver__init___run s (fresh clk))).
  erewrite bind_Ok by (apply JSObserver_start_run; attr).
  intros Hus Hquiet Hu.
  eapply JSObserver_quiet_updates in Hus as (Hlut & Hms & Hlu & Hm & Hclk);
    [| attr .. | exact Hquiet].
  cbn [clock fresh] in Hclk. split; [exact Hlut|].
  rewrite (JSObserver_update_run w1 v (PInt (-1)) (NInt (-1)) (1000 * s) (-11) m)
    in Hu by (assumption || reflexivity).
  destruct (_ && _); [|discriminate]. injection Hu as <-. cbn [file].
  rewrite Hclk. eexists _, _. split; [reflexivity|].
  split; [reflexivity|]. split; [reflexivity|].
  intros Hepoch. apply Qtrunc_ge.
  apply Qle_trans with (1500 * (clk (S (ticks w1)) - num_Q (NInt (-1))))%Q;
    [|apply Q.le_max_l].
  change (inject_Z 1500000000000) with (1500 * 1000000000)%Q.
  change (num_Q (NInt (-1))) with (-1)%Q. lra.
Qed.

Lemma JSObserver_first_emission_witness :
  attrs (js_started epoch) !! "last_update_time" = Some (PInt (-1)) /\
  exists msg z,
    file (final (update JSObserver (PInt 0) (js_started epoch))) =
      Some (FDoc {| doc_message := msg; doc_update := JInt z |}) /\
    z = Qtrunc (Qmax (1500 * (epoch (S (ticks (js_started epoch))) - (-1)))
                     (inject_Z (1000 * 5))) /\
    z = suggested_poll (epoch (S (ticks (js_started epoch)))) (-1) (1000 * 5) /\
    ((1000000000 <= epoch (S (ticks (js_started epoch))))%Q -> 1500000000000 <= z).
Proof.
  apply (JSObserver_first_emission_uses_sentinel epoch 5 100 0 [] []).
  - unfold js_started. rewrite <- bind_assoc. cbn [fmap list_fmap updates].
    unfold bind at 1.
    destruct ((JSObserver__init__ (PInt 5);; JSObserver_start JSObserver (PInt 100))
                (fresh epoch)) eqn:E; [reflexivity|].
    apply (f_equal raised) in E. vm_compute in E. discriminate.
  - constructor.
  - apply Ok_final. vm_compute. reflexivity.
Defined.

(** ** The log sink *)

Lemma LoggingObserver_update_run w v lu m :
  attrs w !! "last_update" = Some (PInt lu) ->
  attrs w !! "_max_value" = Some (PInt m) ->
  update LoggingObserver (PInt v) w =
  if crossed v lu then
    Ok (PBool true)
       {| attrs := <["last_update" := PInt v]> (<["_current_value" := PInt v]> (attrs w));
          clock := clock w; ticks := ticks w;
          log := LogInfo "Rendered %d of %d.  %d%% complete"
                   [PInt v; PInt m; mkfloat (percent_of v m)] :: log w;
          file := file w; writes := writes w; fd := fd w |}
  else
    Ok (PBool false) (with_attrs w (<["_current_value" := PInt v]> (attrs w))).
Proof.
  intros Hlu Hm. unfold update, LoggingObserver_update, Observer_update.
  rewrite bind_assoc. repeat mstep.
  unfold _need_update, LoggingObserver_need_update, get_current_value.
  rewrite bind_assoc. mstep.
  erewrite bind_Ok by (apply (staircase_int _ _ v lu); attr).
  cbn [truthy]. destruct (crossed v lu); [|reflexivity].
  unfold get_max_value. repeat mstep.
  erewrite bind_Ok; cycle 1.
  { apply (get_percentage_int _ _ v m); apply getattr_Some; attr. }
  repeat mstep. reflexivity.
Qed.

Lemma count_true_cons (b : bool) (bs : list bool) :
  count_true (b :: bs) = ((if b then 1 else 0) + count_true bs)%nat.
Proof. unfold count_true. now destruct b. Qed.

Lemma LoggingObserver_updates_run (vs : list Z) : forall w lu m,
  attrs w !! "last_update" = Some (PInt lu) ->
  attrs w !! "_max_value" = Some (PInt m) ->
  exists w',
    updates LoggingObserver (PInt <$> vs) w = Ok (PBool <$> crossings lu vs) w' /\
    length (log w') = (length (log w) + count_true (crossings lu vs))%nat.
Proof.
  induction vs as [|v vs IH]; intros w lu m Hlu Hm.
  - exists w. split; [reflexivity|]. cbn. lia.
  - cbn [fmap list_fmap updates crossings].
    pose proof (LoggingObserver_update_run w v lu m Hlu Hm) as Hu.
    destruct (crossed v lu); rewrite (bind_Ok _ _ _ _ _ Hu).
    + match type of Hu with _ = Ok _ ?w1 =>
        destruct (IH w1 v m) as (w' & Hrun & Hlen); [attr | attr |] end.
      rewrite (bind_Ok _ _ _ _ _ Hrun). exists w'. split; [reflexivity|].
      rewrite Hlen, count_true_cons. cbn [log length]. lia.
    + match type of Hu with _ = Ok _ ?w1 =>
        destruct (IH w1 lu m) as (w' & Hrun & Hlen); [attr | attr |] end.
      rewrite (bind_Ok _ _ _ _ _ Hrun). exists w'. split; [reflexivity|].
      rewrite Hlen, count_true_cons. cbn [log with_attrs]. lia.
Qed.

Lemma LoggingObserver_start_run (clk : nat -> Q) (m : Z) :
  (LoggingObserver__init__ ;; Observer_start LoggingObserver (PInt m)) (fresh clk) =
  Ok PObj
     {| attrs := <["last_update" := PInt 0]>
                   (<["_current_value" := PInt 0]>
                      (<["start_time" := mkfloat (clk 0%nat)]>
                         (<["_max_value" := PInt m]>
                            (<["last_update" := PInt (-101)]> ∅))));
        clock := clk; ticks := 1;
        log := [LogInfo "Rendered %d of %d.  %d%% complete"
                  [PInt 0; PInt m; mkfloat (percent_of 0 m)]];
        file := None; writes := 0; fd := [] |}.
Proof.
  unfold LoggingObserver__init__, object__init__, Observer_start, _set_max_value.
  rewrite !bind_assoc. repeat mstep.
  erewrite bind_Ok; cycle 1.
  { apply (LoggingObserver_update_run _ 0 (-101) m); attr. }
  reflexivity.
Qed.

(** C3.  In a log sink whose last emitted value is [lu], an update emits a
    line exactly when the staircase threshold is crossed; over any sequence
    of updates (strictly increasing or not) the answers are the crossings and
    the log grows by their number.  A fresh log sink holds the sentinel
    [-101], so the [update(0)] that [start] performs always logs its line. *)
Theorem LoggingObserver_emissions (w : world) (lu m : Z) :
  attrs w !! "last_update" = Some (PInt lu) ->
  attrs w !! "_max_value" = Some (PInt m) ->
  (forall v, exists w',
      update LoggingObserver (PInt v) w = Ok (PBool (crossed v lu)) w' /\
      log w' = (if crossed v lu
                then [LogInfo "Rendered %d of %d.  %d%% complete"
                        [PInt v; PInt m; mkfloat (percent_of v m)]]
                else []) ++ log w) /\
  (forall vs, exists w',
      updates LoggingObserver (PInt <$> vs) w = Ok (PBool <$> crossings lu vs) w' /\
      length (log w') = (length (log w) + count_true (crossings lu vs))%nat) /\
  (lu = -101 -> exists w',
      update LoggingObserver (PInt 0) w = Ok (PBool true) w' /\
      log w' = LogInfo "Rendered %d of %d.  %d%% complete"
                 [PInt 0; PInt m; mkfloat (percent_of 0 m)] :: log w) /\
  (forall clk m0, exists w0,
      (LoggingObserver__init__ ;; Observer_start LoggingObserver (PInt m0)) (fresh clk)
      = Ok PObj w0 /\
      log w0 = [LogInfo "Rendered %d of %d.  %d%% complete"
                  [PInt 0; PInt m0; mkfloat (percent_of 0 m0)]]).
Proof.
  intros Hlu Hm. repeat split.
  - intros v. rewrite (LoggingObserver_update_run w v lu m Hlu Hm).
    destruct (crossed v lu); eexists; split; reflexivity.
  - intros vs. now apply (LoggingObserver_updates_run vs w lu m).
  - intros ->. rewrite (LoggingObserver_update_run w 0 (-101) m Hlu Hm).
    eexists. split; reflexivity.
  - intros clk m0. eexists. split; [apply LoggingObserver_start_run|reflexivity].
Qed.

Lemma LoggingObserver_emissions_witness :
  (forall v, exists w',
      update LoggingObserver (PInt v) (log_started epoch) = Ok (PBool (crossed v 0)) w' /\
      log w' = (if crossed v 0
                then [LogInfo "Rendered %d of %d.  %d%% complete"
                        [PInt v; PInt 1000; mkfloat (percent_of v 1000)]]
                else []) ++ log (log_started epoch)) /\
  (exists w',
      updates LoggingObserver (PInt <$> scenario_values) (log_started epoch)
      = Ok (PBool <$> crossings 0 scenario_values) w' /\
      length (log w') =
      (length (log (log_started epoch)) + count_true (crossings 0 scenario_values))%nat).
Proof.
  assert (attrs (log_started epoch) !! "last_update" = Some (PInt 0)) as Hlu
      by (vm_compute; reflexivity).
  assert (attrs (log_started epoch) !! "_max_value" = Some (PInt 1000)) as Hm
      by (vm_compute; reflexivity).
  destruct (LoggingObserver_emissions (log_started epoch) 0 1000 Hlu Hm)
    as (Hone & Hmany & _).
  split; [exact Hone | exact (Hmany scenario_values)].
Defined.

(** ** The terminal sink *)

Lemma ProgressBarObserver_update_run w v lu :
  attrs w !! "last_update" = Some (PInt lu) ->
  attrs w !! "UPDATE_INTERVAL" = None ->
  update ProgressBarObserver (PInt v) w =
  if interval_crossed v lu then
    Ok PNone {| attrs := <["last_update" := PInt v]> (<["currval" := PInt v]> (attrs w));
                clock := clock w; ticks := ticks w; log := log w; file := file w;
                writes := writes w; fd := BarFrame (PInt v) :: fd w |}
  else
    Ok PNone (with_attrs w (<["currval" := PInt v]> (attrs w))).
Proof.
  intros Hlu Hui.
  unfold update, ProgressBarObserver_update, ProgressBar_update.
  rewrite bind_assoc. mstep. rewrite bind_assoc.
  unfold _need_update, ProgressBarObserver_need_update, get_current_value.
  rewrite bind_assoc. mstep. rewrite bind_assoc. mstep.
  rewrite py_sub_int. rewrite bind_assoc. mstep. rewrite bind_assoc.
  erewrite bind_Ok; cycle 1.
  { unfold getattr. wsimpl. rewrite !lookup_insert_ne by discriminate.
    rewrite Hui. reflexivity. }
  mstep. rewrite py_gt_int. cbn [truthy]. unfold interval_crossed.
  destruct (25 <? v - lu).
  - rewrite bind_assoc. repeat mstep. cbn [truthy]. repeat mstep. reflexivity.
  - repeat mstep. reflexivity.
Qed.

Lemma ProgressBarObserver_updates_run (vs : list Z) : forall w lu,
  attrs w !! "last_update" = Some (PInt lu) ->
  attrs w !! "UPDATE_INTERVAL" = None ->
  exists w',
    updates ProgressBarObserver (PInt <$> vs) w = Ok ((fun _ => PNone) <$> vs) w' /\
    fd w' = frames (interval_emitted lu vs) ++ fd w.
Proof.
  induction vs as [|v vs IH]; intros w lu Hlu Hui.
  - exists w. split; reflexivity.
  - cbn [fmap list_fmap updates interval_emitted].
    pose proof (ProgressBarObserver_update_run w v lu Hlu Hui) as Hu.
    destruct (interval_crossed v lu); rewrite (bind_Ok _ _ _ _ _ Hu).
    + match type of Hu with _ = Ok _ ?w1 =>
        destruct (IH w1 v) as (w' & Hrun & Hfd) end.
      { attr. }
      { wsimpl. now rewrite !lookup_insert_ne by discriminate. }
      rewrite (bind_Ok _ _ _ _ _ Hrun). exists w'. split; [reflexivity|].
      rewrite Hfd. unfold frames. cbn [fd fmap list_fmap rev].
      now rewrite <- app_assoc.
    + match type of Hu with _ = Ok _ ?w1 =>
        destruct (IH w1 lu) as (w' & Hrun & Hfd) end.
      { attr. }
      { wsimpl. now rewrite !lookup_insert_ne by discriminate. }
      rewrite (bind_Ok _ _ _ _ _ Hrun). exists w'. split; [reflexivity|].
      rewrite Hfd. reflexivity.
Qed.

Lemma ProgressBarObserver__init___run (bar_attrs : gmap string pyval) (clk : nat -> Q) :
  bar_attrs !! "UPDATE_INTERVAL" = None ->
  ProgressBarObserver__init__ bar_attrs (fresh clk) =
  Ok tt (with_attrs (fresh clk) (<["last_update" := PInt (-26)]> bar_attrs)).
Proof.
  intros Hui. unfold ProgressBarObserver__init__.
  unfold bind at 1. cbn [fresh attrs]. rewrite (right_id_L ∅ (∪)).
  erewrite bind_Ok; cycle 1.
  { unfold getattr. cbn [attrs with_attrs]. rewrite Hui. reflexivity. }
  reflexivity.
Qed.

(** C7, as amended.  The terminal sink emits on an update exactly when
    [current_value - last_update > 25], whatever the magnitude of the value,
    and an emission makes the value the new [last_update].  From the sentinel
    [-26] that the constructor leaves, the updates 0, 10, 24, 26, 50 emit on 0
    and on 26, and on none of 10, 24 and 50 (50 is only 24 above 26). *)
Theorem ProgressBarObserver_emissions (w : world) (lu : Z) :
  attrs w !! "last_update" = Some (PInt lu) ->
  attrs w !! "UPDATE_INTERVAL" = None ->
  (forall v, exists w',
      update ProgressBarObserver (PInt v) w = Ok PNone w' /\
      (interval_crossed v lu = true <-> v - lu > 25) /\
      fd w' = (if interval_crossed v lu then [BarFrame (PInt v)] else []) ++ fd w /\
      attrs w' !! "last_update"
      = Some (PInt (if interval_crossed v lu then v else lu))) /\
  (forall vs, exists w',
      updates ProgressBarObserver (PInt <$> vs) w = Ok ((fun _ => PNone) <$> vs) w' /\
      fd w' = frames (interval_emitted lu vs) ++ fd w) /\
  (lu = -26 -> exists w',
      updates ProgressBarObserver (PInt <$> terminal_values) w
      = Ok ((fun _ => PNone) <$> terminal_values) w' /\
      fd w' = [BarFrame (PInt 26); BarFrame (PInt 0)] ++ fd w) /\
  (forall clk bar_attrs,
      bar_attrs !! "UPDATE_INTERVAL" = None ->
      attrs (final (ProgressBarObserver__init__ bar_attrs (fresh clk))) !! "last_update"
      = Some (PInt (-26))).
Proof.
  intros Hlu Hui. split; [|split; [|split]].
  - intros v. rewrite (ProgressBarObserver_update_run w v lu Hlu Hui).
    unfold interval_crossed. destruct (Z.ltb_spec 25 (v - lu));
      eexists; (split; [reflexivity|]); (split; [split; [lia | intros; lia || reflexivity]|]);
      (split; [reflexivity | attr]).
  - intros vs. now apply ProgressBarObserver_updates_run.
  - intros ->.
    destruct (ProgressBarObserver_updates_run terminal_values w (-26) Hlu Hui)
      as (w' & Hrun & Hfd).
    exists w'. split; [exact Hrun | exact Hfd].
  - intros clk bar_attrs Hbar.
    rewrite (ProgressBarObserver__init___run bar_attrs clk Hbar).
    cbn [final attrs with_attrs]. apply lookup_insert_eq.
Qed.

Lemma ProgressBarObserver_emissions_witness :
  exists w',
    updates ProgressBarObserver (PInt <$> terminal_values) (bar_built epoch)
    = Ok ((fun _ => PNone) <$> terminal_values) w' /\
    fd w' = [BarFrame (PInt 26); BarFrame (PInt 0)] ++ fd (bar_built epoch).
Proof.
  assert (attrs (bar_built epoch) !! "last_update" = Some (PInt (-26))) as Hlu
      by (vm_compute; reflexivity).
  assert (attrs (bar_built epoch) !! "UPDATE_INTERVAL" = None) as Hui
      by (vm_compute; reflexivity).
  destruct (ProgressBarObserver_emissions (bar_built epoch) (-26) Hlu Hui)
    as (_ & _ & Hseq & _).
  exact (Hseq eq_refl).
Defined.

(** C7 as stated fails: after the emission at 26 the throttle predicate
    rejects 50, and the update to 50 paints no frame. *)
Lemma ProgressBarObserver_skips_50 :
  value (_need_update ProgressBarObserver (bar_at 50 26 epoch)) = Some (PBool false) /\
  fd (final (updates ProgressBarObserver (PInt <$> terminal_values) (bar_built epoch)))
  = [BarFrame (PInt 26); BarFrame (PInt 0)] /\
  ~ In (BarFrame (PInt 50))
      (fd (final (updates ProgressBarObserver (PInt <$> terminal_values)
                    (bar_built epoch)))).
Proof.
  split; [|split].
  - vm_compute. reflexivity.
  - vm_compute. reflexivity.
  - vm_compute. intuition discriminate.
Qed.

(** ** [start] *)

Lemma Observer_start_contract (w : world) (m : Z) :
  start_contract Observer (Observer_start Observer (PInt m)) m w.
Proof.
  unfold start_contract, Observer_start, _set_max_value, started_world.
  eexists _, _. split.
  - unfold update, Observer_update. repeat mstep. reflexivity.
  - repeat mstep. unfold update, Observer_update. rewrite bind_assoc.
    repeat mstep. reflexivity.
Qed.

Lemma LoggingObserver_start_contract (w : world) (m lu : Z) :
  attrs w !! "last_update" = Some (PInt lu) ->
  start_contract LoggingObserver (Observer_start LoggingObserver (PInt m)) m w.
Proof.
  intros Hlu. unfold start_contract, Observer_start, _set_max_value, started_world.
  assert (forall w1,
    attrs w1 = <["start_time" := mkfloat (clock w (ticks w))]>
                 (<["_max_value" := PInt m]> (attrs w)) ->
    exists r w', update LoggingObserver (PInt 0) w1 = Ok r w') as Hrun.
  { intros w1 Hw1.
    rewrite (LoggingObserver_update_run w1 0 lu m) by (rewrite Hw1; attr).
    destruct (crossed 0 lu); eexists _, _; reflexivity. }
  destruct (Hrun (started_world LoggingObserver m w) eq_refl) as (r & w' & Hu).
  exists r, w'. split; [exact Hu|].
  repeat mstep. erewrite bind_Ok by exact Hu. reflexivity.
Qed.

Lemma Observer_start_run (w : world) (m : Z) :
  Observer_start Observer (PInt m) w =
  Ok PObj (with_attrs (tick w)
             (<["_current_value" := PInt 0]>
                (<["start_time" := mkfloat (clock w (ticks w))]>
                   (<["_max_value" := PInt m]> (attrs w))))).
Proof.
  unfold Observer_start, _set_max_value. repeat mstep.
  unfold update, Observer_update. rewrite bind_assoc. repeat mstep. reflexivity.
Qed.

Lemma LoggingObserver_start_observed (w : world) (m lu : Z) :
  attrs w !! "last_update" = Some (PInt lu) ->
  exists w',
    Observer_start LoggingObserver (PInt m) w = Ok PObj w' /\
    get_max_value LoggingObserver w' = Ok (PInt m) w' /\
    attrs w' !! "start_time" = Some (mkfloat (clock w (ticks w))) /\
    get_current_value LoggingObserver w' = Ok (PInt 0) w'.
Proof.
  intros Hlu. unfold Observer_start, _set_max_value. repeat mstep.
  match goal with |- context [bind (update LoggingObserver (PInt 0)) _ ?w1] =>
    assert (Hu := LoggingObserver_update_run w1 0 lu m ltac:(attr) ltac:(attr)) end.
  destruct (crossed 0 lu); rewrite (bind_Ok _ _ _ _ _ Hu);
    eexists; (split; [reflexivity|]);
    unfold get_max_value, get_current_value;
    repeat split; try apply getattr_Some; attr.
Qed.

Lemma ProgressBarObserver_start_run (bar_start : M pyval) (w : world) (m : Z) :
  ProgressBarObserver_start bar_start ProgressBarObserver (PInt m) w =
  match bar_start
          (with_log (with_attrs w (<["maxval" := PInt m]> (attrs w)))
             (LogInfo ("Rendering " +:+ pretty m +:+ " total tiles.") [] :: log w))
  with
  | Ok _ w' => Ok PNone w'
  | Raise e w' => Raise e w'
  end.
Proof.
  unfold ProgressBarObserver_start, _set_max_value. mstep.
  cbn [fmt_d as_num]. repeat mstep. wsimpl.
  unfold bind. now destruct (bar_start _).
Qed.

(** C5, as amended.  On the base tracker and on the log sink, [start] with
    an integer [max_value] sets [max_value], records [start_time = now],
    performs the internal [update(0)] and returns the tracker itself.  The
    [start] of the status file sink writes the document announcing the
    number of tiles, records [start_time = now] and sets [max_value]; it
    performs no [update(0)], so the current value and the last emitted value
    stay what they were.  The [start] of the terminal sink sets the
    [max_value] of the bar renderer, logs the line announcing the number of
    tiles and then runs the start sequence of the renderer, whatever that
    is, on the instance so prepared: it ends as that sequence ends, fails as
    it fails, and answers [None] itself, so it never meets the contract of
    the base [start]. *)
Theorem start_by_class (w : world) (m : Z) :
  (start_contract Observer (Observer_start Observer (PInt m)) m w /\
   exists w',
     Observer_start Observer (PInt m) w = Ok PObj w' /\
     get_max_value Observer w' = Ok (PInt m) w' /\
     attrs w' !! "start_time" = Some (mkfloat (clock w (ticks w))) /\
     get_current_value Observer w' = Ok (PInt 0) w') /\
  (forall lu, attrs w !! "last_update" = Some (PInt lu) ->
     start_contract LoggingObserver (Observer_start LoggingObserver (PInt m)) m w /\
     exists w',
       Observer_start LoggingObserver (PInt m) w = Ok PObj w' /\
       get_max_value LoggingObserver w' = Ok (PInt m) w' /\
       attrs w' !! "start_time" = Some (mkfloat (clock w (ticks w))) /\
       get_current_value LoggingObserver w' = Ok (PInt 0) w') /\
  (forall mr, attrs w !! "minrefresh" = Some mr ->
     exists r w',
       JSObserver_start JSObserver (PInt m) w = Ok r w' /\
       get_max_value JSObserver w' = Ok (PInt m) w' /\
       attrs w' !! "start_time" = Some (mkfloat (clock w (ticks w))) /\
       file w' = Some (FDoc {| doc_message := "Rendering " +:+ pretty m +:+ " tiles";
                               doc_update := fmt_s mr |}) /\
       attrs w' !! "_current_value" = attrs w !! "_current_value" /\
       attrs w' !! "last_update" = attrs w !! "last_update") /\
  (exists w1,
     get_max_value ProgressBarObserver w1 = Ok (PInt m) w1 /\
     attrs w1 = <["maxval" := PInt m]> (attrs w) /\
     log w1 = LogInfo ("Rendering " +:+ pretty m +:+ " total tiles.") [] :: log w /\
     ticks w1 = ticks w /\ fd w1 = fd w /\ file w1 = file w /\
     forall bar_start : M pyval,
       (forall r0 w', bar_start w1 = Ok r0 w' ->
          ProgressBarObserver_start bar_start ProgressBarObserver (PInt m) w
          = Ok PNone w') /\
       (forall e w', bar_start w1 = Raise e w' ->
          ProgressBarObserver_start bar_start ProgressBarObserver (PInt m) w
          = Raise e w') /\
       ~ start_contract ProgressBarObserver
           (ProgressBarObserver_start bar_start ProgressBarObserver (PInt m)) m w).
Proof.
  split; [|split; [|split]].
  - split; [apply Observer_start_contract|].
    rewrite Observer_start_run. eexists. split; [reflexivity|].
    unfold get_max_value, get_current_value.
    repeat split; try apply getattr_Some; attr.
  - intros lu Hlu. split.
    + now apply (LoggingObserver_start_contract w m lu).
    + now apply (LoggingObserver_start_observed w m lu).
  - intros mr Hmr. rewrite (JSObserver_start_run mr m w Hmr).
    eexists _, _. split; [reflexivity|]. unfold get_max_value.
    repeat split; try (apply getattr_Some; attr); try attr;
      cbn [attrs file]; now rewrite ?lookup_insert_ne by discriminate.
  - exists (with_log (with_attrs w (<["maxval" := PInt m]> (attrs w)))
              (LogInfo ("Rendering " +:+ pretty m +:+ " total tiles.") [] :: log w)).
    split; [unfold get_max_value; apply getattr_Some; attr|].
    do 5 (split; [reflexivity|]).
    intros bar_start. split; [|split].
    + intros r0 w' Hb. now rewrite ProgressBarObserver_start_run, Hb.
    + intros e w' Hb. now rewrite ProgressBarObserver_start_run, Hb.
    + intros (r & w' & _ & Hs). rewrite ProgressBarObserver_start_run in Hs.
      destruct (bar_start _); discriminate.
Qed.

(** C5 as stated fails on the status file sink: its [start] returns [None],
    not the tracker, and leaves the current value at the [-1] of the
    constructor. *)
Lemma JSObserver_start_breaks_contract :
  ~ start_contract JSObserver (JSObserver_start JSObserver (PInt 100)) 100
      (js_built epoch) /\
  value (JSObserver_start JSObserver (PInt 100) (js_built epoch)) = Some PNone /\
  value ((JSObserver_start JSObserver (PInt 100) ;; get_current_value JSObserver)
           (js_built epoch)) = Some (PInt (-1)).
Proof.
  split; [|split].
  - intros (r & w' & _ & Hs). apply (f_equal value) in Hs.
    vm_compute in Hs. discriminate.
  - vm_compute. reflexivity.
  - vm_compute. reflexivity.
Qed.

(** ** The lifecycle predicates *)

(** On the base tracker the three predicates follow the calls: all false on
    a fresh instance, [is_started] and [is_running] true once [start] has
    run, [is_finished] true and [is_running] false once [finish] has. *)
Lemma Observer_lifecycle (clk : nat -> Q) (m : Z) :
  value ((Observer__init__ ;; is_started Observer) (fresh clk)) = Some (PBool false) /\
  value ((Observer__init__ ;; is_finished Observer) (fresh clk)) = Some (PBool false) /\
  value ((Observer__init__ ;; is_running Observer) (fresh clk)) = Some (PBool false) /\
  value ((Observer__init__ ;; Observer_start Observer (PInt m) ;;
          is_started Observer) (fresh clk)) = Some (PBool true) /\
  value ((Observer__init__ ;; Observer_start Observer (PInt m) ;;
          is_running Observer) (fresh clk)) = Some (PBool true) /\
  value ((Observer__init__ ;; Observer_start Observer (PInt m) ;;
          is_finished Observer) (fresh clk)) = Some (PBool false) /\
  value ((Observer__init__ ;; Observer_start Observer (PInt m) ;; Observer_finish ;;
          is_finished Observer) (fresh clk)) = Some (PBool true) /\
  value ((Observer__init__ ;; Observer_start Observer (PInt m) ;; Observer_finish ;;
          is_running Observer) (fresh clk)) = Some (PBool false).
Proof. repeat split; vm_compute; reflexivity. Qed.

(** [add(0)] changes nothing and emits nothing, whatever the class. *)
Lemma add_zero (c : cls) (w : world) : add c (PInt 0) w = Ok PNone w.
Proof. reflexivity. Qed.

(** C8 fails on the sinks.  [LoggingObserver.__init__] calls
    [super(Observer, self).__init__()], which skips [Observer.__init__], and
    [JSObserver.__init__] assigns neither [start_time] nor [end_time]: on a
    fresh instance [is_started] raises [AttributeError] instead of answering
    [False], and after [start] so does [is_running], which reads the
    unassigned [end_time].  [ProgressBarObserver.finish] assigns [_end_time],
    not the [end_time] that [is_finished] reads. *)
Theorem lifecycle_predicates_raise (clk : nat -> Q) :
  raised ((LoggingObserver__init__ ;; is_started LoggingObserver) (fresh clk))
  = Some AttributeError /\
  raised ((LoggingObserver__init__ ;; Observer_start LoggingObserver (PInt 100) ;;
           is_running LoggingObserver) (fresh clk))
  = Some AttributeError /\
  raised ((JSObserver__init__ (PInt 5) ;; is_started JSObserver) (fresh clk))
  = Some AttributeError /\
  raised ((JSObserver__init__ (PInt 5) ;; JSObserver_start JSObserver (PInt 100) ;;
           is_running JSObserver) (fresh clk))
  = Some AttributeError /\
  (forall (bar_finish : M pyval) (w : world),
      attrs w !! "end_time" = None ->
      (forall w0, attrs w0 !! "end_time" = None ->
                  exists r w1, bar_finish w0 = Ok r w1 /\ attrs w1 !! "end_time" = None) ->
      raised ((ProgressBarObserver_finish bar_finish ;; is_finished ProgressBarObserver) w)
      = Some AttributeError).
Proof.
  repeat split; try (vm_compute; reflexivity).
  intros bar_finish w Hend Hbar.
  unfold ProgressBarObserver_finish. msteps.
  match goal with |- context [bind bar_finish _ ?w0] =>
    destruct (Hbar w0) as (r & w1 & Hrun & Hend1) end.
  { wsimpl. now rewrite lookup_insert_ne by discriminate. }
  rewrite (bind_Ok _ _ _ _ _ Hrun). msteps.
  unfold is_finished, getattr, bind. wsimpl. rewrite Hend1. reflexivity.
Qed.

(** ** Failures of the base tracker *)

Lemma tracker_ready_start (w : world) (m : Z) (e : pyval) :
  attrs w !! "end_time" = Some e ->
  exists w', Observer_start Observer (PInt m) w = Ok PObj w' /\ tracker_ready w'.
Proof.
  intros He. rewrite Observer_start_run. eexists. split; [reflexivity|].
  exists 0, m, (mkfloat (clock w (ticks w))), e. repeat split; attr.
Qed.

Lemma Observer_call_safe (k : call) (w : world) :
  tracker_ready w ->
  exists r w', Observer_call k w = Ok r w' /\ tracker_ready w'.
Proof.
  intros (cur & max & t & e & Hcur & Hmax & Ht & He).
  destruct k as [m|v|d| | | | | | |]; cbn [Observer_call].
  - destruct (tracker_ready_start w m e He) as (w' & Hrun & Hready).
    now exists PObj, w'.
  - unfold update, Observer_update. msteps. eexists _, _. split; [reflexivity|].
    exists v, max, t, e. repeat split; attr.
  - unfold add. destruct (truthy (PInt d)).
    + unfold get_current_value. msteps. rewrite (bind_lift_Val (PInt (cur + d))).
      unfold update, Observer_update. msteps. eexists _, _. split; [reflexivity|].
      exists (cur + d), max, t, e. repeat split; attr.
    + eexists _, _. split; [reflexivity|]. now exists cur, max, t, e.
  - unfold Observer_finish. msteps. eexists _, _. split; [reflexivity|].
    exists cur, max, t, (mkfloat (clock w (ticks w))). repeat split; attr.
  - unfold is_started. msteps. eexists _, _. split; [reflexivity|].
    now exists cur, max, t, e.
  - unfold is_finished. msteps. eexists _, _. split; [reflexivity|].
    now exists cur, max, t, e.
  - unfold is_running, is_started, is_finished. msteps.
    destruct (truthy _); msteps; eexists _, _; (split; [reflexivity|]);
      now exists cur, max, t, e.
  - rewrite (get_percentage_int Observer w cur max) by (now apply getattr_Some).
    eexists _, _. split; [reflexivity|]. now exists cur, max, t, e.
  - unfold get_current_value. rewrite (getattr_Some _ _ _ _ Hcur).
    eexists _, _. split; [reflexivity|]. now exists cur, max, t, e.
  - unfold get_max_value. rewrite (getattr_Some _ _ _ _ Hmax).
    eexists _, _. split; [reflexivity|]. now exists cur, max, t, e.
Qed.

Lemma Observer_calls_safe (ks : list call) : forall w,
  tracker_ready w ->
  exists rs w', Observer_calls ks w = Ok rs w' /\ length rs = length ks.
Proof.
  induction ks as [|k ks IH]; intros w Hready.
  - exists [], w. split; reflexivity.
  - destruct (Observer_call_safe k w Hready) as (r & w1 & Hk & Hready1).
    destruct (IH w1 Hready1) as (rs & w2 & Hks & Hlen).
    exists (r :: rs), w2. cbn [Observer_calls].
    rewrite (bind_Ok _ _ _ _ _ Hk), (bind_Ok _ _ _ _ _ Hks).
    split; [reflexivity|]. cbn [length]. now rewrite Hlen.
Qed.

(** C9, as amended.  On the base tracker every sequence of calls with
    integer arguments that begins with [start] completes, each call with an
    answer, and so does an [update] before [start]; but [get_percentage]
    before [start] and a non-zero [add] before any update raise [TypeError]
    (the operands are [None]) instead of yielding a number. *)
Theorem Observer_calls_complete (clk : nat -> Q) :
  (forall (m : Z) (ks : list call), exists rs w',
      (Observer__init__ ;; Observer_calls (CStart m :: ks)) (fresh clk) = Ok rs w' /\
      length rs = S (length ks)) /\
  (forall v : Z, exists w',
      (Observer__init__ ;; update Observer (PInt v)) (fresh clk) = Ok (PBool false) w') /\
  raised ((Observer__init__ ;; get_percentage Observer) (fresh clk)) = Some TypeError /\
  (forall d : Z, d <> 0 ->
      raised ((Observer__init__ ;; add Observer (PInt d)) (fresh clk)) = Some TypeError).
Proof.
  assert (exists w0, Observer__init__ (fresh clk) = Ok tt w0 /\
                     attrs w0 !! "_current_value" = Some PNone /\
                     attrs w0 !! "_max_value" = Some PNone /\
                     attrs w0 !! "end_time" = Some PNone) as (w0 & Hinit & Hc & Hm & He).
  { unfold Observer__init__. msteps. unfold setattr. eexists.
    split; [reflexivity|]. repeat split; attr. }
  split; [|split; [|split]].
  - intros m ks. rewrite (bind_Ok _ _ _ _ _ Hinit).
    destruct (tracker_ready_start w0 m PNone He) as (w1 & Hstart & Hready).
    destruct (Observer_calls_safe ks w1 Hready) as (rs & w2 & Hks & Hlen).
    exists (PObj :: rs), w2. cbn [Observer_calls Observer_call].
    rewrite (bind_Ok _ _ _ _ _ Hstart), (bind_Ok _ _ _ _ _ Hks).
    split; [reflexivity|]. cbn [length]. now rewrite Hlen.
  - intros v. rewrite (bind_Ok _ _ _ _ _ Hinit).
    unfold update, Observer_update. msteps. eexists. reflexivity.
  - rewrite (bind_Ok _ _ _ _ _ Hinit).
    unfold get_percentage, get_max_value, get_current_value. msteps.
    cbn [is_int_zero]. msteps. reflexivity.
  - intros d Hd. rewrite (bind_Ok _ _ _ _ _ Hinit). unfold add.
    assert (truthy (PInt d) = true) as ->.
    { cbn [truthy]. apply negb_true_iff. now apply Z.eqb_neq. }
    unfold get_current_value. msteps. reflexivity.
Qed.

(** C9 as stated fails: both calls raise on a tracker that was not started. *)
Lemma Observer_unstarted_raises :
  raised ((Observer__init__ ;; get_percentage Observer) (fresh epoch)) = Some TypeError /\
  raised ((Observer__init__ ;; add Observer (PInt 5)) (fresh epoch)) = Some TypeError.
Proof. split; vm_compute; reflexivity. Qed.

(** ** [finish] of the status file sink *)

Lemma py_floordiv_float_60 (d : Q) :
  py_floordiv (mkfloat d) (PInt 60) = Val (mkfloat (inject_Z (Qfloor (d / 60)))).
Proof.
  unfold py_floordiv. cbn [mkfloat as_num num_Q Qis_zero inject_Z Qnum Z.eqb].
  f_equal. apply mkfloat_proper.
  change (inject_Z 60) with 60%Q.
  assert (Qfloor (Qred d / 60) = Qfloor (d / 60)) as ->; [|reflexivity].
  apply Qfloor_comp. now rewrite Qred_correct.
Qed.

(** What [finish] writes: the minutes are the whole minutes of the duration
    [d], and what is printed as seconds is [d] minus the number of minutes. *)
Lemma JSObserver_finish_run (w : world) (st : pyval) (ns : num) :
  attrs w !! "start_time" = Some st -> as_num st = Some ns ->
  JSObserver_finish JSObserver w =
  Ok PNone
     {| attrs := <["end_time" := mkfloat (clock w (ticks w))]> (attrs w);
        clock := clock w; ticks := S (ticks w); log := log w;
        file := Some (FDoc
          {| doc_message :=
               "Render completed in "
               +:+ pretty (Qfloor ((clock w (ticks w) - num_Q ns) / 60)) +:+ "m "
               +:+ pretty (Qtrunc ((clock w (ticks w) - num_Q ns)
                                   - inject_Z (Qfloor ((clock w (ticks w) - num_Q ns) / 60))))
               +:+ "s";
             doc_update := JStr "false" |});
        writes := S (writes w); fd := fd w |}.
Proof.
  intros Hst Hns. unfold JSObserver_finish. msteps.
  rewrite (py_sub_float _ st ns Hns). msteps.
  rewrite py_floordiv_float_60. msteps.
  erewrite py_sub_float by reflexivity. msteps.
  cbn [mkfloat fmt_d as_num num_Q]. msteps.
  rewrite !Qtrunc_Qred, Qtrunc_inject_Z.
  assert (Qtrunc (clock w (ticks w) - num_Q ns
                  - Qred (inject_Z (Qfloor ((clock w (ticks w) - num_Q ns) / 60))))
          = Qtrunc (clock w (ticks w) - num_Q ns
                    - inject_Z (Qfloor ((clock w (ticks w) - num_Q ns) / 60)))) as ->.
  { apply Qtrunc_proper. now rewrite Qred_correct. }
  reflexivity.
Qed.

(** C6 fails on the seconds.  [finish] writes the string ["false"] as the
    [update] field and the whole minutes of the duration [d], but what the
    message gives as seconds is [d - d // 60], the duration minus the number
    of minutes: a render of 125 s is reported as 2m 123s, not 2m 5s. *)
Theorem JSObserver_finish_seconds_slip :
  (forall (clk : nat -> Q) (s m : Z),
      file (final ((JSObserver__init__ (PInt s) ;;
                    JSObserver_start JSObserver (PInt m) ;;
                    JSObserver_finish JSObserver) (fresh clk)))
      = Some (FDoc
          {| doc_message :=
               "Render completed in "
               +:+ pretty (Qfloor ((clk 1%nat - Qred (clk 0%nat)) / 60)) +:+ "m "
               +:+ pretty (Qtrunc ((clk 1%nat - Qred (clk 0%nat))
                                   - inject_Z (Qfloor ((clk 1%nat - Qred (clk 0%nat)) / 60))))
               +:+ "s";
             doc_update := JStr "false" |})) /\
  file (final ((JSObserver__init__ (PInt 5) ;;
                JSObserver_start JSObserver (PInt 100) ;;
                update JSObserver (PInt 100) ;;
                JSObserver_finish JSObserver) (fresh epoch_long)))
  = Some (FDoc {| doc_message := "Render completed in 2m 123s";
                  doc_update := JStr "false" |}) /\
  (epoch_long 4 - epoch_long 0 == 125)%Q.
Proof.
  split; [|split; vm_compute; reflexivity].
  intros clk s m.
  rewrite (bind_Ok _ _ _ _ _ (JSObserver__init___run s (fresh clk))).
  erewrite bind_Ok by (apply JSObserver_start_run; attr).
  erewrite (JSObserver_finish_run _ _ (NFloat (Qred (clk 0%nat))))
    by (first [attr | reflexivity]).
  reflexivity.
Qed.

(** * Further properties *)

(** ** The range of the percentage *)

Lemma percent_of_bounds (cur m : Z) :
  0 < m -> 0 <= cur <= m ->
  (0 <= percent_of cur m <= 100)%Q /\
  ((percent_of cur m == 100)%Q <-> cur = m).
Proof.
  intros Hm [H0 H1]. unfold percent_of.
  destruct (Z.eqb_spec m 0) as [->|_]; [lia|].
  assert (0 < inject_Z m)%Q as Hmq
      by (change 0%Q with (inject_Z 0); now rewrite <- Zlt_Qlt).
  assert (0 <= inject_Z cur)%Q as Hc0
      by (change 0%Q with (inject_Z 0); now rewrite <- Zle_Qle).
  assert (inject_Z cur <= inject_Z m)%Q as Hc1 by (now rewrite <- Zle_Qle).
  repeat split.
  - apply Qle_shift_div_l; [exact Hmq|]. lra.
  - apply Qle_shift_div_r; [exact Hmq|]. lra.
  - intros E.
    assert (inject_Z cur * 100 == inject_Z m * 100)%Q as E'.
    { rewrite <- (Qmult_div_r (inject_Z cur * 100) (inject_Z m)) by lra.
      now rewrite E. }
    apply inject_Z_injective. lra.
  - intros ->. field. lra.
Qed.

(** X1.  With integers [0 <= current <= max] and [0 < max < 2^53 / 100],
    [get_percentage] answers a float between 0 and 100 that a [%d]
    conversion prints as a number from 0 to 100, and it is 100 only when the
    current value has reached [max].  The bound on [max] is the range in
    which the exact quotient of the model speaks for the double the code
    computes: [current * 100.0] is then exact in double precision, and a
    quotient below a whole number stays at least [1 / max > 100 / 2^53] below
    it, more than half the spacing of the doubles under 100, so rounding the
    quotient neither reaches that number nor leaves the range.  Beyond the
    bound the code answers 100.0 for values close to [max]. *)
Theorem get_percentage_bounds (c : cls) (w : world) (cur m : Z) :
  get_current_value c w = Ok (PInt cur) w ->
  get_max_value c w = Ok (PInt m) w ->
  0 < m -> 100 * m < 2 ^ 53 -> 0 <= cur <= m ->
  exists q,
    get_percentage c w = Ok (PFloat q) w /\
    (0 <= q <= 100)%Q /\
    0 <= Qtrunc q <= 100 /\
    ((q == 100)%Q <-> cur = m).
Proof.
  intros Hc Hm Hpos _ Hr.
  destruct (percent_of_bounds cur m Hpos Hr) as ((Hlo & Hhi) & Hfull).
  exists (Qred (percent_of cur m)).
  split; [exact (get_percentage_int c w cur m Hc Hm)|].
  rewrite Qtrunc_Qred. rewrite !Qred_correct. repeat split; try tauto.
  - apply Qtrunc_ge. exact Hlo.
  - unfold Qtrunc. apply Qle_bool_iff in Hlo as ->.
    rewrite <- (Qfloor_Z 100). now apply Qfloor_resp_le.
Qed.

(** ** Zero that is not the integer zero *)

Lemma Qis_zero_true (q : Q) : q == 0 -> Qis_zero q = true.
Proof.
  unfold Qeq, Qis_zero. cbn. rewrite Z.mul_1_r. intros ->. reflexivity.
Qed.

(** X2.  The test [max_value is 0] holds for the integer zero alone: with a
    [max_value] that is zero as a number but not that integer (the float
    [0.0], [False]), [get_percentage] divides and raises
    [ZeroDivisionError]. *)
Theorem get_percentage_zero_not_int
    (c : cls) (w : world) (mx v : pyval) (nm n : num) :
  get_max_value c w = Ok mx w ->
  as_num mx = Some nm -> num_Q nm == 0 -> mx <> PInt 0 ->
  get_current_value c w = Ok v w -> as_num v = Some n ->
  get_percentage c w = Raise ZeroDivisionError w.
Proof.
  intros Hm Hnm Hz Hne Hv Hn. unfold get_percentage.
  rewrite (bind_Ok _ _ _ _ _ Hm).
  assert (is_int_zero mx = false) as ->.
  { destruct mx as [|b|z|q|]; try reflexivity.
    destruct z; try reflexivity. congruence. }
  rewrite (bind_Ok _ _ _ _ _ Hv).
  assert (py_mul v (PFloat 100) = Val (mkfloat (num_Q n * 100))) as ->.
  { unfold py_mul, arith. rewrite Hn. destruct n; reflexivity. }
  rewrite bind_lift_Val, (bind_Ok _ _ _ _ _ Hm).
  unfold py_div, mkfloat. cbn [as_num]. rewrite Hnm.
  rewrite (Qis_zero_true _ Hz).
  destruct nm; reflexivity.
Qed.

Lemma get_percentage_zero_not_int_witness :
  get_percentage Observer (tracker_float_zero epoch)
  = Raise ZeroDivisionError (tracker_float_zero epoch).
Proof.
  apply (get_percentage_zero_not_int Observer (tracker_float_zero epoch)
           (PFloat 0) (PInt 0) (NFloat 0) (NInt 0)).
  - apply getattr_Some. vm_compute. reflexivity.
  - reflexivity.
  - reflexivity.
  - discriminate.
  - apply getattr_Some. vm_compute. reflexivity.
  - reflexivity.
Defined.

Lemma get_percentage_bounds_witness :
  exists q,
    get_percentage Observer (tracker_at_2 8 epoch) = Ok (PFloat q) (tracker_at_2 8 epoch) /\
    (0 <= q <= 100)%Q /\
    0 <= Qtrunc q <= 100 /\
    ((q == 100)%Q <-> 2 = 8).
Proof.
  apply (get_percentage_bounds Observer (tracker_at_2 8 epoch) 2 8).
  - apply getattr_Some. vm_compute. reflexivity.
  - apply getattr_Some. vm_compute. reflexivity.
  - lia.
  - reflexivity.
  - lia.
Defined.

(** ** The lifecycle of the base tracker over any call sequence *)

Lemma Observer_call_lifecycle (k : call) (w : world) (fin : bool) :
  (exists (cur max : Z) (t e : pyval),
      attrs w !! "_current_value" = Some (PInt cur) /\
      attrs w !! "_max_value" = Some (PInt max) /\
      attrs w !! "start_time" = Some t /\ is_None t = false /\
      attrs w !! "end_time" = Some e /\ is_None e = negb fin) ->
  exists r w',
    Observer_call k w = Ok r w' /\
    exists (cur max : Z) (t e : pyval),
      attrs w' !! "_current_value" = Some (PInt cur) /\
      attrs w' !! "_max_value" = Some (PInt max) /\
      attrs w' !! "start_time" = Some t /\ is_None t = false /\
      attrs w' !! "end_time" = Some e /\ is_None e = negb (fin || is_finish k).
Proof.
  intros (cur & max & t & e & Hcur & Hmax & Ht & Htn & He & Hen).
  assert (Hfin : forall b, b = false -> negb (fin || b) = negb fin)
    by (intros b ->; now rewrite orb_false_r).
  destruct k as [m|v|d| | | | | | |]; cbn [Observer_call is_finish].
  - rewrite Observer_start_run. eexists _, _. split; [reflexivity|].
    exists 0, m, (mkfloat (clock w (ticks w))), e.
    rewrite Hfin by reflexivity. repeat split; try attr; assumption.
  - unfold update, Observer_update. msteps. eexists _, _. split; [reflexivity|].
    exists v, max, t, e. rewrite Hfin by reflexivity.
    repeat split; try attr; assumption.
  - unfold add. destruct (truthy (PInt d)).
    + unfold get_current_value. msteps. rewrite (bind_lift_Val (PInt (cur + d))).
      unfold update, Observer_update. msteps. eexists _, _. split; [reflexivity|].
      exists (cur + d), max, t, e. rewrite Hfin by reflexivity.
      repeat split; try attr; assumption.
    + eexists _, _. split; [reflexivity|]. exists cur, max, t, e.
      rewrite Hfin by reflexivity. repeat split; assumption.
  - unfold Observer_finish. msteps. eexists _, _. split; [reflexivity|].
    exists cur, max, t, (mkfloat (clock w (ticks w))). rewrite orb_true_r.
    repeat split; try attr; try assumption; reflexivity.
  - unfold is_started. msteps. eexists _, _. split; [reflexivity|].
    exists cur, max, t, e. rewrite Hfin by reflexivity. repeat split; assumption.
  - unfold is_finished. msteps. eexists _, _. split; [reflexivity|].
    exists cur, max, t, e. rewrite Hfin by reflexivity. repeat split; assumption.
  - unfold is_running, is_started, is_finished. msteps.
    destruct (truthy _); msteps; eexists _, _; (split; [reflexivity|]);
      exists cur, max, t, e; rewrite Hfin by reflexivity; repeat split; assumption.
  - rewrite (get_percentage_int Observer w cur max) by (now apply getattr_Some).
    eexists _, _. split; [reflexivity|]. exists cur, max, t, e.
    rewrite Hfin by reflexivity. repeat split; assumption.
  - unfold get_current_value. rewrite (getattr_Some _ _ _ _ Hcur).
    eexists _, _. split; [reflexivity|]. exists cur, max, t, e.
    rewrite Hfin by reflexivity. repeat split; assumption.
  - unfold get_max_value. rewrite (getattr_Some _ _ _ _ Hmax).
    eexists _, _. split; [reflexivity|]. exists cur, max, t, e.
    rewrite Hfin by reflexivity. repeat split; assumption.
Qed.

Lemma Observer_calls_lifecycle (ks : list call) : forall (w : world) (fin : bool),
  (exists (cur max : Z) (t e : pyval),
      attrs w !! "_current_value" = Some (PInt cur) /\
      attrs w !! "_max_value" = Some (PInt max) /\
      attrs w !! "start_time" = Some t /\ is_None t = false /\
      attrs w !! "end_time" = Some e /\ is_None e = negb fin) ->
  exists rs w' (t e : pyval),
    Observer_calls ks w = Ok rs w' /\
    attrs w' !! "start_time" = Some t /\ is_None t = false /\
    attrs w' !! "end_time" = Some e /\ is_None e = negb (fin || finish_called ks).
Proof.
  induction ks as [|k ks IH]; intros w fin Hinv.
  - destruct Hinv as (cur & max & t & e & _ & _ & Ht & Htn & He & Hen).
    exists [], w, t, e. cbn [finish_called existsb]. rewrite orb_false_r.
    repeat split; assumption.
  - destruct (Observer_call_lifecycle k w fin Hinv) as (r & w1 & Hk & Hinv1).
    destruct (IH w1 _ Hinv1) as (rs & w2 & t & e & Hks & Ht & Htn & He & Hen).
    exists (r :: rs), w2, t, e. cbn [Observer_calls].
    rewrite (bind_Ok _ _ _ _ _ Hk), (bind_Ok _ _ _ _ _ Hks).
    cbn [finish_called existsb]. rewrite orb_assoc.
    repeat split; assumption.
Qed.

(** X3.  On the base tracker, after [start] and any further calls (integer
    arguments, [start] and [finish] repeated at will), [is_started] answers
    [True], [is_finished] answers whether [finish] was called since, and
    [is_running] the opposite: [end_time] is never unset, so a [start] after
    [finish] does not make the tracker run again. *)
Theorem Observer_lifecycle_invariant (clk : nat -> Q) (m : Z) (ks : list call) :
  exists rs w',
    (Observer__init__ ;; Observer_calls (CStart m :: ks)) (fresh clk) = Ok rs w' /\
    is_started Observer w' = Ok (PBool true) w' /\
    is_finished Observer w' = Ok (PBool (finish_called ks)) w' /\
    is_running Observer w' = Ok (PBool (negb (finish_called ks))) w'.
Proof.
  assert (exists w0, Observer__init__ (fresh clk) = Ok tt w0 /\
                     attrs w0 !! "end_time" = Some PNone) as (w0 & Hinit & He).
  { unfold Observer__init__. msteps. unfold setattr. eexists.
    split; [reflexivity|]. attr. }
  rewrite (bind_Ok _ _ _ _ _ Hinit). cbn [Observer_calls Observer_call].
  rewrite (bind_Ok _ _ _ _ _ (Observer_start_run w0 m)).
  match goal with |- context [bind (Observer_calls ks) _ ?w1] =>
    destruct (Observer_calls_lifecycle ks w1 false)
      as (rs & w2 & t & e & Hks & Ht & Htn & Het & Hen) end.
  { exists 0, m, (mkfloat (clock w0 (ticks w0))), PNone.
    repeat split; try attr; reflexivity. }
  cbn [orb] in Hen. rewrite (bind_Ok _ _ _ _ _ Hks).
  exists (PObj :: rs), w2. split; [reflexivity|].
  assert (is_started Observer w2 = Ok (PBool true) w2) as Hs.
  { unfold is_started. rewrite (bind_getattr _ _ _ _ _ Ht), Htn. reflexivity. }
  assert (is_finished Observer w2 = Ok (PBool (finish_called ks)) w2) as Hf.
  { unfold is_finished. rewrite (bind_getattr _ _ _ _ _ Het), Hen.
    now rewrite negb_involutive. }
  repeat split; try assumption.
  unfold is_running. rewrite (bind_Ok _ _ _ _ _ Hs). cbn [truthy].
  rewrite (bind_Ok _ _ _ _ _ Hf). reflexivity.
Qed.

(** ** Increments *)

Lemma update_sink_ready (c : cls) (w : world) (cur v : Z) :
  sink_ready c cur w ->
  exists r w', update c (PInt v) w = Ok r w' /\ sink_ready c v w'.
Proof.
  intros [Hcur Hc]. destruct c.
  - unfold update, Observer_update. msteps. eexists _, _.
    split; [reflexivity|]. split; [attr | exact I].
  - destruct Hc as (lu & m & Hlu & Hm).
    rewrite (LoggingObserver_update_run w v lu m Hlu Hm).
    destruct (crossed v lu); eexists _, _; (split; [reflexivity|]);
      (split; [attr|]); [exists v, m | exists lu, m]; split; attr.
  - destruct Hc.
  - destruct Hc as (lut & nl & ms & lu & m & Hlut & Hnl & Hms & Hlu & Hm).
    rewrite (JSObserver_update_run w v lut nl ms lu m Hlut Hnl Hms Hlu Hm).
    destruct (_ && _); eexists _, _; (split; [reflexivity|]); (split; [attr|]).
    + exists (mkfloat (clock w (S (S (ticks w))))),
        (NFloat (Qred (clock w (S (S (ticks w)))))), ms, v, m.
      repeat split; attr.
    + exists lut, nl, ms, lu, m. repeat split; attr.
Qed.

(** X4.  On the base tracker, the log sink and the status file sink, a
    sequence of [add] calls with integer amounts leaves the current value at
    its initial value plus the sum of the amounts, whether or not the
    updates on the way were emitted; zero amounts are skipped. *)
Theorem adds_accumulate (c : cls) (ds : list Z) : forall (w : world) (cur : Z),
  sink_ready c cur w ->
  exists w',
    adds c (PInt <$> ds) w = Ok tt w' /\
    sink_ready c (cur + fold_right Z.add 0 ds) w' /\
    get_current_value c w' = Ok (PInt (cur + fold_right Z.add 0 ds)) w'.
Proof.
  induction ds as [|d ds IH]; intros w cur Hready.
  - exists w. cbn [fold_right]. rewrite Z.add_0_r. split; [reflexivity|].
    split; [exact Hready|].
    destruct Hready as [Hcur Hc]. destruct c; now apply getattr_Some.
  - cbn [fmap list_fmap adds fold_right]. unfold add.
    assert (get_current_value c w = Ok (PInt cur) w) as Hget.
    { destruct Hready as [Hcur Hc]. destruct c; now apply getattr_Some. }
    cbn [truthy]. destruct (Z.eqb_spec d 0) as [->|Hd]; cbn [negb].
    + rewrite bind_ret. destruct (IH w cur Hready) as (w' & Hrun & Hr & Hg).
      exists w'. now rewrite Z.add_0_l.
    + rewrite !bind_assoc, (bind_Ok _ _ _ _ _ Hget).
      change (py_add (PInt cur) (PInt d)) with (Val (PInt (cur + d))).
      rewrite !bind_assoc, bind_lift_Val, !bind_assoc.
      destruct (update_sink_ready c w cur (cur + d) Hready) as (r & w1 & Hu & Hr1).
      rewrite (bind_Ok _ _ _ _ _ Hu), bind_ret.
      destruct (IH w1 (cur + d) Hr1) as (w' & Hrun & Hr & Hg).
      exists w'. now rewrite Z.add_assoc.
Qed.

Lemma adds_accumulate_witness :
  exists w',
    adds JSObserver (PInt <$> unit_steps) (js_started epoch) = Ok tt w' /\
    sink_ready JSObserver (-1 + fold_right Z.add 0 unit_steps) w' /\
    get_current_value JSObserver w'
    = Ok (PInt (-1 + fold_right Z.add 0 unit_steps)) w'.
Proof.
  apply (adds_accumulate JSObserver unit_steps (js_started epoch) (-1)).
  destruct (js_started_attrs epoch) as (H1 & H2 & H3 & H4).
  split; [vm_compute; reflexivity|].
  exists (PInt (-1)), (NInt (-1)), (1000 * 5), (-11), 100.
  repeat split; assumption.
Defined.

(** ** How far the log may lag *)

Lemma threshold_range (v : Z) : 10 <= threshold v <= 100.
Proof.
  unfold threshold. destruct (v <? 100); [lia|]. destruct (v <? 500); lia.
Qed.

(** X5.  After every update of a log sink the current value is at most the
    band's delta (10, 50 or 100, so never more than 100) above the last
    value that was logged. *)
Theorem LoggingObserver_lag (w : world) (v lu m : Z) :
  attrs w !! "last_update" = Some (PInt lu) ->
  attrs w !! "_max_value" = Some (PInt m) ->
  exists r w' lu',
    update LoggingObserver (PInt v) w = Ok r w' /\
    attrs w' !! "_current_value" = Some (PInt v) /\
    attrs w' !! "last_update" = Some (PInt lu') /\
    v - lu' <= threshold v /\ v - lu' <= 100.
Proof.
  intros Hlu Hm. rewrite (LoggingObserver_update_run w v lu m Hlu Hm).
  pose proof (threshold_range v) as Hr.
  unfold crossed. destruct (Z.ltb_spec (threshold v) (v - lu)).
  - eexists _, _, v. split; [reflexivity|]. repeat split; try attr; lia.
  - eexists _, _, lu. split; [reflexivity|]. repeat split; try attr; lia.
Qed.

Lemma LoggingObserver_lag_witness :
  exists r w' lu',
    update LoggingObserver (PInt 20) (log_started epoch) = Ok r w' /\
    attrs w' !! "_current_value" = Some (PInt 20) /\
    attrs w' !! "last_update" = Some (PInt lu') /\
    20 - lu' <= threshold 20 /\ 20 - lu' <= 100.
Proof.
  apply (LoggingObserver_lag (log_started epoch) 20 0 1000).
  - vm_compute. reflexivity.
  - vm_compute. reflexivity.
Defined.

(** ** How many lines a run may log *)

Lemma crossings_spacing (vs : list Z) : forall lu,
  11 * Z.of_nat (count_true (crossings lu vs)) <= last_after lu vs - lu.
Proof.
  induction vs as [|v vs IH]; intros lu; cbn [crossings last_after].
  - cbn. lia.
  - pose proof (threshold_range v) as Hr. unfold crossed at 1 2.
    destruct (Z.ltb_spec (threshold v) (v - lu)).
    + rewrite count_true_cons. specialize (IH v). lia.
    + rewrite count_true_cons. specialize (IH lu). lia.
Qed.

Lemma last_after_bound (M : Z) (vs : list Z) : forall lu,
  lu <= M -> Forall (fun v => v <= M) vs -> last_after lu vs <= M.
Proof.
  induction vs as [|v vs IH]; intros lu Hlu Hall; cbn [last_after]; [exact Hlu|].
  inversion Hall as [|? ? Hv Hvs]; subst.
  destruct (crossed v lu); now apply IH.
Qed.

Lemma LoggingObserver_updates_last (vs : list Z) : forall w lu m,
  attrs w !! "last_update" = Some (PInt lu) ->
  attrs w !! "_max_value" = Some (PInt m) ->
  exists w' l,
    updates LoggingObserver (PInt <$> vs) w = Ok (PBool <$> crossings lu vs) w' /\
    log w' = l ++ log w /\
    length l = count_true (crossings lu vs) /\
    attrs w' !! "last_update" = Some (PInt (last_after lu vs)) /\
    attrs w' !! "_max_value" = Some (PInt m).
Proof.
  induction vs as [|v vs IH]; intros w lu m Hlu Hm.
  - exists w, []. split; [reflexivity|]. cbn. repeat split; assumption.
  - cbn [fmap list_fmap updates crossings last_after].
    pose proof (LoggingObserver_update_run w v lu m Hlu Hm) as Hu.
    destruct (crossed v lu); rewrite (bind_Ok _ _ _ _ _ Hu).
    + match type of Hu with _ = Ok _ ?w1 =>
        destruct (IH w1 v m) as (w' & l & Hrun & Hlog & Hlen & Hl & Hmx);
          [attr | attr |] end.
      rewrite (bind_Ok _ _ _ _ _ Hrun). eexists w', (l ++ [_]).
      split; [reflexivity|]. rewrite Hlog, count_true_cons. cbn [log].
      rewrite <- app_assoc, length_app, Hlen. cbn [length app].
      repeat split; try assumption; lia.
    + match type of Hu with _ = Ok _ ?w1 =>
        destruct (IH w1 lu m) as (w' & l & Hrun & Hlog & Hlen & Hl & Hmx);
          [attr | attr |] end.
      rewrite (bind_Ok _ _ _ _ _ Hrun). exists w', l.
      split; [reflexivity|]. rewrite Hlog, count_true_cons. cbn [log with_attrs].
      repeat split; try assumption; lia.
Qed.

(** X6.  Every line a log sink emits moves the last logged value up by at
    least 11, so over updates that stay at or below [M] the number of lines
    added is at most [(M - lu) / 11], [lu] being the last logged value before
    them (from the sentinel of a fresh sink: [(M + 101) / 11]). *)
Theorem LoggingObserver_line_budget (w : world) (lu m M : Z) (vs : list Z) :
  attrs w !! "last_update" = Some (PInt lu) ->
  attrs w !! "_max_value" = Some (PInt m) ->
  lu <= M -> Forall (fun v => v <= M) vs ->
  exists rs w',
    updates LoggingObserver (PInt <$> vs) w = Ok rs w' /\
    11 * Z.of_nat (length (log w') - length (log w)) <= M - lu.
Proof.
  intros Hlu Hm HM Hall.
  destruct (LoggingObserver_updates_last vs w lu m Hlu Hm)
    as (w' & l & Hrun & Hlog & Hlen & _ & _).
  exists (PBool <$> crossings lu vs), w'. split; [exact Hrun|].
  rewrite Hlog, length_app, Hlen.
  replace (count_true (crossings lu vs) + length (log w) - length (log w))%nat
    with (count_true (crossings lu vs)) by lia.
  pose proof (crossings_spacing vs lu).
  pose proof (last_after_bound M vs lu HM Hall). lia.
Qed.

Lemma LoggingObserver_line_budget_witness :
  exists rs w',
    updates LoggingObserver (PInt <$> scenario_values) (log_started epoch) = Ok rs w' /\
    11 * Z.of_nat (length (log w') - length (log (log_started epoch))) <= 26 - 0.
Proof.
  apply (LoggingObserver_line_budget (log_started epoch) 0 1000 26 scenario_values).
  - vm_compute. reflexivity.
  - vm_compute. reflexivity.
  - lia.
  - unfold scenario_values. repeat constructor; lia.
Defined.

(** ** A whole run of the log sink *)

(** X7.  A log sink that is built, started on [m] units, updated with any
    integers and finished logs the line of zero progress first, one line per
    crossing of the staircase, and whatever the throttle state a last line of
    100%; after that [is_finished] answers [True]. *)
Theorem LoggingObserver_whole_run (clk : nat -> Q) (m : Z) (vs : list Z) :
  exists w',
    (LoggingObserver__init__ ;;
     Observer_start LoggingObserver (PInt m) ;;
     updates LoggingObserver (PInt <$> vs) ;;
     LoggingObserver_finish LoggingObserver) (fresh clk) = Ok PNone w' /\
    length (log w') = (2 + count_true (crossings 0 vs))%nat /\
    head (log w') = Some (LogInfo "Rendered %d of %d.  %d%% complete"
                            [PInt m; PInt m; PFloat 100]) /\
    last (log w') = Some (LogInfo "Rendered %d of %d.  %d%% complete"
                            [PInt 0; PInt m; mkfloat (percent_of 0 m)]) /\
    is_finished LoggingObserver w' = Ok (PBool true) w'.
Proof.
  pose proof (LoggingObserver_start_run clk m) as Hstart.
  rewrite <- bind_assoc. rewrite (bind_Ok _ _ _ _ _ Hstart).
  match type of Hstart with _ = Ok _ ?w1 =>
    destruct (LoggingObserver_updates_last vs w1 0 m)
      as (w2 & l & Hrun & Hlog & Hlen & _ & Hmx); [attr | attr |] end.
  rewrite (bind_Ok _ _ _ _ _ Hrun).
  unfold LoggingObserver_finish, get_max_value, Observer_finish.
  rewrite !(bind_getattr _ _ _ _ _ Hmx). msteps.
  eexists. split; [reflexivity|]. cbn [log] in Hlog.
  split; [|split; [|split]].
  - wsimpl. rewrite Hlog. cbn [length]. rewrite length_app, Hlen. cbn [length]. lia.
  - reflexivity.
  - wsimpl. rewrite Hlog, app_comm_cons, last_snoc. reflexivity.
  - unfold is_finished. msteps. reflexivity.
Qed.

(** ** Calls that come before [start] *)

(** X8.  On a log sink that was built but not started, an update that
    crosses the staircase (every value above -91, by the sentinel) stores the
    value and then raises [AttributeError] on [_max_value], with nothing
    logged; a value of -91 or less is stored and answered [False]. *)
Theorem LoggingObserver_update_unstarted (clk : nat -> Q) (v : Z) :
  (-91 < v ->
   raised ((LoggingObserver__init__ ;; update LoggingObserver (PInt v)) (fresh clk))
   = Some AttributeError /\
   log (final ((LoggingObserver__init__ ;; update LoggingObserver (PInt v)) (fresh clk)))
   = [] /\
   attrs (final ((LoggingObserver__init__ ;; update LoggingObserver (PInt v))
                   (fresh clk))) !! "_current_value" = Some (PInt v)) /\
  (v <= -91 ->
   value ((LoggingObserver__init__ ;; update LoggingObserver (PInt v)) (fresh clk))
   = Some (PBool false)).
Proof.
  assert (crossed v (-101) = true <-> -91 < v) as Hc.
  { unfold crossed, threshold. rewrite Z.ltb_lt.
    destruct (Z.ltb_spec v 100); [lia|]. destruct (Z.ltb_spec v 500); lia. }
  assert (forall k : pyval -> M pyval,
    (LoggingObserver__init__ ;;
     (Observer_update (PInt v) ;; let* need := _need_update LoggingObserver in k need))
      (fresh clk)
    = k (PBool (crossed v (-101)))
        (with_attrs (fresh clk)
           (<["_current_value" := PInt v]> (<["last_update" := PInt (-101)]> ∅))))
    as Hrun.
  { intros k. unfold LoggingObserver__init__, object__init__, Observer_update.
    msteps. unfold _need_update, LoggingObserver_need_update, get_current_value.
    msteps. erewrite bind_Ok by (apply (staircase_int _ _ v (-101)); attr).
    reflexivity. }
  unfold update, LoggingObserver_update. rewrite Hrun. split.
  - intros Hv. apply Hc in Hv. rewrite Hv. cbn [truthy].
    unfold get_current_value, get_max_value. msteps.
    unfold bind, getattr. cbn [attrs with_attrs fresh class_attr].
    rewrite !lookup_insert_ne by discriminate. rewrite lookup_empty.
    cbn [raised final log attrs]. repeat split; apply lookup_insert_eq.
  - intros Hv. destruct (crossed v (-101)); [|reflexivity].
    destruct Hc as [Hc _]. specialize (Hc eq_refl). lia.
Qed.

Lemma getattr_None c name w :
  attrs w !! name = None -> class_attr c name = None ->
  getattr c name w = Raise AttributeError w.
Proof. intros E1 E2. unfold getattr. now rewrite E1, E2. Qed.

(** An attribute that no assignment of the stack made. *)
Ltac noattr :=
  apply getattr_None; [|reflexivity]; wsimpl;
  rewrite ?lookup_insert_ne by discriminate; first [apply lookup_empty | eassumption].

Lemma crossed_sentinel_js (v : Z) : crossed v (-11) = true <-> 0 <= v.
Proof.
  unfold crossed, threshold. rewrite Z.ltb_lt.
  destruct (Z.ltb_spec v 100); [lia|]. destruct (Z.ltb_spec v 500); lia.
Qed.

(** X9.  On a status file sink that was built but not started, an update
    that passes both gates (a clock reading above [s - 1] seconds and a value
    of 0 or more) truncates [progress.js] and then raises [AttributeError] on
    [_max_value]: the file is left empty, the document of the constructor
    gone. *)
Theorem JSObserver_update_unstarted (clk : nat -> Q) (s v : Z) :
  (inject_Z s < clk 0%nat + 1)%Q -> 0 <= v ->
  raised ((JSObserver__init__ (PInt s) ;; update JSObserver (PInt v)) (fresh clk))
  = Some AttributeError /\
  file (final ((JSObserver__init__ (PInt s) ;; update JSObserver (PInt v)) (fresh clk)))
  = Some FEmpty /\
  writes (final ((JSObserver__init__ (PInt s) ;; update JSObserver (PInt v))
                   (fresh clk))) = 1%nat.
Proof.
  intros Ht Hv.
  rewrite (bind_Ok _ _ _ _ _ (JSObserver__init___run s (fresh clk))).
  unfold update, JSObserver_update. mstep.
  erewrite bind_Ok; cycle 1.
  { apply (JSObserver_need_update_run _ v (PInt (-1)) (NInt (-1)) (1000 * s) (-11));
      first [attr | reflexivity]. }
  assert (time_floor_passed (clk 0%nat) (num_Q (NInt (-1))) (1000 * s) = true) as Hgate.
  { apply time_floor_passed_seconds. rewrite inject_Z_mult.
    change (inject_Z 1000) with 1000%Q. change (num_Q (NInt (-1))) with (-1)%Q. lra. }
  wsimpl. cbn [fresh clock ticks]. rewrite Hgate.
  apply crossed_sentinel_js in Hv. rewrite Hv. cbn [andb truthy].
  msteps. erewrite py_sub_float by reflexivity. msteps.
  assert (forall q, py_mul (PInt 1500) (mkfloat q) = Val (mkfloat (1500 * q))) as Hmul.
  { intros q. unfold py_mul, arith. cbn [mkfloat as_num num_Q]. f_equal.
    apply mkfloat_proper. now rewrite Qred_correct. }
  rewrite Hmul. msteps. unfold get_current_value, get_max_value. msteps.
  erewrite bind_Raise by noattr.
  cbn [raised final file writes with_file]. repeat split.
Qed.

Lemma JSObserver_update_unstarted_witness :
  raised ((JSObserver__init__ (PInt 5) ;; update JSObserver (PInt 0)) (fresh epoch))
  = Some AttributeError /\
  file (final ((JSObserver__init__ (PInt 5) ;; update JSObserver (PInt 0)) (fresh epoch)))
  = Some FEmpty /\
  writes (final ((JSObserver__init__ (PInt 5) ;; update JSObserver (PInt 0))
                   (fresh epoch))) = 1%nat.
Proof.
  apply (JSObserver_update_unstarted epoch 5 0).
  - vm_compute. reflexivity.
  - lia.
Defined.

(** X10.  [finish] on a status file sink that was not started raises
    [AttributeError] on [start_time] without touching the file, but
    [end_time] is assigned by then: [is_finished] answers [True] afterwards
    although no final document was written. *)
Theorem JSObserver_finish_unstarted (clk : nat -> Q) (s : Z) :
  raised ((JSObserver__init__ (PInt s) ;; JSObserver_finish JSObserver) (fresh clk))
  = Some AttributeError /\
  file (final ((JSObserver__init__ (PInt s) ;; JSObserver_finish JSObserver) (fresh clk)))
  = Some (FDoc {| doc_message := "Render in progress"; doc_update := JInt (1000 * s) |}) /\
  value (is_finished JSObserver
           (final ((JSObserver__init__ (PInt s) ;; JSObserver_finish JSObserver)
                     (fresh clk)))) = Some (PBool true).
Proof.
  rewrite (bind_Ok _ _ _ _ _ (JSObserver__init___run s (fresh clk))).
  unfold JSObserver_finish. msteps.
  erewrite bind_Raise by noattr.
  cbn [raised final file with_attrs tick]. repeat split.
Qed.

(** ** The suggested interval on an emission *)

(** X11.  An update of the status file sink emits only once more than [s]
    seconds have passed, so on a clock that does not run backwards the value
    it writes is [1500 * (now - last_update_time)] itself, at least [1500 * s]
    milliseconds: whenever [s] is positive the [minrefresh] arm of the [max]
    is never the one written. *)
Theorem JSObserver_suggestion_above_floor
    (w w1 : world) (lut : pyval) (nl : num) (s lu m v : Z) :
  attrs w !! "minrefresh" = Some (PInt (1000 * s)) ->
  attrs w !! "last_update_time" = Some lut -> as_num lut = Some nl ->
  attrs w !! "last_update" = Some (PInt lu) ->
  attrs w !! "_max_value" = Some (PInt m) ->
  0 <= s ->
  (clock w (ticks w) <= clock w (S (ticks w)))%Q ->
  update JSObserver (PInt v) w = Ok (PBool true) w1 ->
  exists msg z,
    file w1 = Some (FDoc {| doc_message := msg; doc_update := JInt z |}) /\
    z = Qtrunc (1500 * (clock w (S (ticks w)) - num_Q nl)) /\
    1500 * s <= z /\
    (0 < s -> 1000 * s < z).
Proof.
  intros Hms Hlut Hnl Hlu Hm Hs Hmono.
  rewrite (JSObserver_update_run w v lut nl (1000 * s) lu m) by assumption.
  destruct (time_floor_passed _ _ _) eqn:Hgate; [|discriminate].
  destruct (crossed v lu); [|discriminate]. cbn [andb]. intros [= <-]. cbn [file].
  apply time_floor_passed_seconds in Hgate. rewrite inject_Z_mult in Hgate.
  change (inject_Z 1000) with 1000%Q in Hgate.
  assert (0 <= inject_Z s)%Q as Hsq
      by (change 0%Q with (inject_Z 0); now rewrite <- Zle_Qle).
  assert (inject_Z (1500 * s) <= 1500 * (clock w (S (ticks w)) - num_Q nl))%Q as Hbig.
  { rewrite inject_Z_mult. change (inject_Z 1500) with 1500%Q. lra. }
  assert (suggested_poll (clock w (S (ticks w))) (num_Q nl) (1000 * s)
          = Qtrunc (1500 * (clock w (S (ticks w)) - num_Q nl))) as Hz.
  { unfold suggested_poll. apply Qtrunc_proper. apply Q.max_l.
    rewrite inject_Z_mult. change (inject_Z 1000) with 1000%Q. lra. }
  eexists _, _. split; [reflexivity|]. rewrite Hz. split; [reflexivity|].
  apply Qtrunc_ge in Hbig. split; [exact Hbig | lia].
Qed.

Lemma JSObserver_suggestion_above_floor_witness :
  exists msg z,
    file (final (update JSObserver (PInt 0) (js_started epoch)))
    = Some (FDoc {| doc_message := msg; doc_update := JInt z |}) /\
    z = Qtrunc (1500 * (clock (js_started epoch) (S (ticks (js_started epoch)))
                        - num_Q (NInt (-1)))) /\
    1500 * 5 <= z /\
    (0 < 5 -> 1000 * 5 < z).
Proof.
  destruct (js_started_attrs epoch) as (H1 & H2 & H3 & H4).
  apply (JSObserver_suggestion_above_floor (js_started epoch) _ (PInt (-1)) (NInt (-1))
           5 (-11) 100 0 H1 H2 eq_refl H3 H4).
  - lia.
  - vm_compute. discriminate.
  - apply Ok_final. vm_compute. reflexivity.
Defined.

(** ** [finish] under a minute *)

Lemma Qfloor_unit (x : Q) : (0 <= x < 1)%Q -> Qfloor x = 0.
Proof.
  intros [H0 H1].
  assert (0 <= Qfloor x) by (rewrite <- (Qfloor_Z 0); now apply Qfloor_resp_le).
  assert (Qfloor x < 1).
  { rewrite Zlt_Qlt. apply Qle_lt_trans with x; [apply Qfloor_le | exact H1]. }
  lia.
Qed.

(** X12.  When less than a minute has passed since [start_time], the final
    document of the status file sink reports 0 minutes and the whole seconds
    of the duration. *)
Theorem JSObserver_finish_short (w : world) (st : pyval) (ns : num) :
  attrs w !! "start_time" = Some st -> as_num st = Some ns ->
  (0 <= clock w (ticks w) - num_Q ns < 60)%Q ->
  file (final (JSObserver_finish JSObserver w))
  = Some (FDoc {| doc_message :=
                    "Render completed in 0m "
                    +:+ pretty (Qfloor (clock w (ticks w) - num_Q ns)) +:+ "s";
                  doc_update := JStr "false" |}).
Proof.
  intros Hst Hns [H0 H1]. rewrite (JSObserver_finish_run w st ns Hst Hns).
  cbn [final file].
  assert (Qfloor ((clock w (ticks w) - num_Q ns) / 60) = 0) as ->.
  { apply Qfloor_unit. split.
    - apply Qle_shift_div_l; [reflexivity | lra].
    - apply Qlt_shift_div_r; [reflexivity | lra]. }
  assert (Qtrunc (clock w (ticks w) - num_Q ns - inject_Z 0)
          = Qfloor (clock w (ticks w) - num_Q ns)) as ->.
  { unfold Qtrunc.
    assert (Qle_bool 0 (clock w (ticks w) - num_Q ns - inject_Z 0) = true) as ->.
    { apply Qle_bool_iff. change (inject_Z 0) with 0%Q. lra. }
    apply Qfloor_comp. change (inject_Z 0) with 0%Q. lra. }
  reflexivity.
Qed.

Lemma JSObserver_finish_short_witness :
  file (final (JSObserver_finish JSObserver (js_started epoch)))
  = Some (FDoc {| doc_message :=
                    "Render completed in 0m "
                    +:+ pretty (Qfloor (clock (js_started epoch) (ticks (js_started epoch))
                                        - num_Q (NFloat (Qred (epoch 0%nat))))) +:+ "s";
                  doc_update := JStr "false" |}).
Proof.
  apply (JSObserver_finish_short (js_started epoch) (mkfloat (epoch 0%nat))
           (NFloat (Qred (epoch 0%nat)))).
  - vm_compute. reflexivity.
  - reflexivity.
  - rewrite js_started_clock. vm_compute. split; [discriminate | reflexivity].
Defined.

(** ** A started status file sink never fails *)

Lemma JSObserver_call_running (k : js_call) (w : world) :
  js_running w ->
  exists r w', JSObserver_call k w = Ok r w' /\ js_running w'.
Proof.
  intros ((cur & Hcur & lut & nl & ms & lu & m & Hlut & Hnl & Hms & Hlu & Hm)
          & (st & ns & Hst & Hns) & (d & Hd)).
  destruct k as [m'|v|a| | |]; cbn [JSObserver_call].
  - rewrite (JSObserver_start_run _ m' w Hms). eexists _, _. split; [reflexivity|].
    split; [|split].
    + exists cur. split; [attr|]. exists lut, nl, ms, lu, m'. repeat split; attr.
    + eexists _, _. split; [attr | reflexivity].
    + eexists. reflexivity.
  - rewrite (JSObserver_update_run w v lut nl ms lu m Hlut Hnl Hms Hlu Hm).
    destruct (_ && _); eexists _, _; (split; [reflexivity|]); (split; [|split]).
    + exists v. split; [attr|].
      exists (mkfloat (clock w (S (S (ticks w))))),
        (NFloat (Qred (clock w (S (S (ticks w)))))), ms, v, m. repeat split; attr.
    + exists st, ns. split; [attr | exact Hns].
    + eexists. reflexivity.
    + exists v. split; [attr|]. exists lut, nl, ms, lu, m. repeat split; attr.
    + exists st, ns. split; [attr | exact Hns].
    + exists d. exact Hd.
  - unfold add. cbn [truthy]. destruct (negb (a =? 0)).
    + unfold get_current_value. msteps. rewrite (bind_lift_Val (PInt (cur + a))).
      rewrite ?bind_assoc.
      pose proof (JSObserver_update_run w (cur + a) lut nl ms lu m Hlut Hnl Hms Hlu Hm)
        as Hu.
      destruct (_ && _); rewrite (bind_Ok _ _ _ _ _ Hu);
        eexists _, _; (split; [reflexivity|]); (split; [|split]).
      * exists (cur + a). split; [attr|].
        exists (mkfloat (clock w (S (S (ticks w))))),
          (NFloat (Qred (clock w (S (S (ticks w)))))), ms, (cur + a), m.
        repeat split; attr.
      * exists st, ns. split; [attr | exact Hns].
      * eexists. reflexivity.
      * exists (cur + a). split; [attr|]. exists lut, nl, ms, lu, m.
        repeat split; attr.
      * exists st, ns. split; [attr | exact Hns].
      * exists d. exact Hd.
    + eexists _, _. split; [reflexivity|]. split; [|split].
      * exists cur. split; [exact Hcur|]. exists lut, nl, ms, lu, m. auto.
      * now exists st, ns.
      * now exists d.
  - rewrite (JSObserver_finish_run w st ns Hst Hns). eexists _, _.
    split; [reflexivity|]. split; [|split].
    + exists cur. split; [attr|]. exists lut, nl, ms, lu, m. repeat split; attr.
    + exists st, ns. split; [attr | exact Hns].
    + eexists. reflexivity.
  - unfold is_started. msteps. eexists _, _. split; [reflexivity|]. split; [|split].
    + exists cur. split; [exact Hcur|]. exists lut, nl, ms, lu, m. auto.
    + now exists st, ns.
    + now exists d.
  - rewrite (get_percentage_int JSObserver w cur m) by (now apply getattr_Some).
    eexists _, _. split; [reflexivity|]. split; [|split].
    + exists cur. split; [exact Hcur|]. exists lut, nl, ms, lu, m. auto.
    + now exists st, ns.
    + now exists d.
Qed.

Lemma JSObserver_calls_running (ks : list js_call) : forall w,
  js_running w ->
  exists rs w', JSObserver_calls ks w = Ok rs w' /\ js_running w' /\
                length rs = length ks.
Proof.
  induction ks as [|k ks IH]; intros w Hrun.
  - exists [], w. repeat split; try reflexivity; apply Hrun.
  - destruct (JSObserver_call_running k w Hrun) as (r & w1 & Hk & Hrun1).
    destruct (IH w1 Hrun1) as (rs & w2 & Hks & Hrun2 & Hlen).
    exists (r :: rs), w2. cbn [JSObserver_calls].
    rewrite (bind_Ok _ _ _ _ _ Hk), (bind_Ok _ _ _ _ _ Hks).
    split; [reflexivity|]. split; [exact Hrun2|]. cbn [length]. now rewrite Hlen.
Qed.

(** X13.  A status file sink built with a whole number of seconds and
    started never raises afterwards: any sequence of [start], [update],
    [add], [finish], [is_started] and [get_percentage] calls with integer
    arguments completes, and after it [progress.js] holds a whole document,
    never an empty or missing file. *)
Theorem JSObserver_calls_complete (clk : nat -> Q) (s m : Z) (ks : list js_call) :
  exists rs w' d,
    (JSObserver__init__ (PInt s) ;; JSObserver_calls (JStart m :: ks)) (fresh clk)
    = Ok rs w' /\
    length rs = S (length ks) /\
    file w' = Some (FDoc d).
Proof.
  rewrite (bind_Ok _ _ _ _ _ (JSObserver__init___run s (fresh clk))).
  cbn [JSObserver_calls JSObserver_call].
  erewrite bind_Ok by (apply JSObserver_start_run; attr).
  match goal with |- context [bind (JSObserver_calls ks) _ ?w1] =>
    destruct (JSObserver_calls_running ks w1)
      as (rs & w2 & Hks & (_ & _ & d & Hd) & Hlen) end.
  { split; [|split].
    - exists (-1). split; [attr|].
      exists (PInt (-1)), (NInt (-1)), (1000 * s), (-11), m.
      repeat split; first [attr | reflexivity].
    - eexists _, _. split; [attr | reflexivity].
    - eexists. reflexivity. }
  rewrite (bind_Ok _ _ _ _ _ Hks). exists (PNone :: rs), w2, d.
  split; [reflexivity|]. split; [|exact Hd]. cbn [length]. now rewrite Hlen.
Qed.

(** ** The time floor in whole seconds *)

(** X14.  [_need_update] of the status file sink compares the seconds
    elapsed with [minrefresh // 1000]: with a float [minrefresh] of [ms]
    milliseconds the time floor is the whole seconds of it, so an update
    that crosses the staircase is accepted once more than [floor(ms / 1000)]
    seconds have passed, also when fewer than [ms] milliseconds have. *)
Theorem JSObserver_need_update_whole_seconds
    (w : world) (lut : pyval) (nl : num) (ms : Q) (cur lu : Z) :
  attrs w !! "_current_value" = Some (PInt cur) ->
  attrs w !! "last_update_time" = Some lut -> as_num lut = Some nl ->
  attrs w !! "minrefresh" = Some (PFloat ms) ->
  attrs w !! "last_update" = Some (PInt lu) ->
  exists b,
    _need_update JSObserver w = Ok (PBool b) (tick w) /\
    (b = true <->
     (inject_Z (Qfloor (ms / 1000)) < clock w (ticks w) - num_Q nl)%Q /\
     crossed cur lu = true) /\
    ((inject_Z (Qfloor (ms / 1000)) < clock w (ticks w) - num_Q nl)%Q ->
     (1000 * (clock w (ticks w) - num_Q nl) < ms)%Q ->
     crossed cur lu = true -> b = true).
Proof.
  intros Hcur Hlut Hnl Hms Hlu.
  unfold _need_update, JSObserver_need_update, get_current_value.
  msteps. rewrite (py_sub_float _ lut nl Hnl). msteps.
  assert (py_floordiv (PFloat ms) (PInt 1000)
          = Val (mkfloat (inject_Z (Qfloor (ms / 1000))))) as ->.
  { reflexivity. }
  msteps. rewrite py_le_float_float.
  destruct (Qle_bool _ _) eqn:E.
  - exists false. split; [reflexivity|].
    apply Qle_bool_iff in E. split.
    + split; [discriminate|]. intros [Hlt _]. lra.
    + intros Hlt _ _. lra.
  - rewrite (staircase_int _ _ cur lu) by attr.
    exists (crossed cur lu). split; [reflexivity|].
    assert (inject_Z (Qfloor (ms / 1000)) < clock w (ticks w) - num_Q nl)%Q as Hlt.
    { apply Qnot_le_lt. intros H. apply Qle_bool_iff in H. congruence. }
    split; [tauto|]. auto.
Qed.

Lemma JSObserver_need_update_whole_seconds_witness :
  exists b,
    _need_update JSObserver (js_fractional epoch) = Ok (PBool b) (tick (js_fractional epoch)) /\
    (b = true <->
     (inject_Z (Qfloor (2500 / 1000))
      < clock (js_fractional epoch) (ticks (js_fractional epoch)) - num_Q (NInt (-1)))%Q /\
     crossed (-1) (-11) = true) /\
    ((inject_Z (Qfloor (2500 / 1000))
      < clock (js_fractional epoch) (ticks (js_fractional epoch)) - num_Q (NInt (-1)))%Q ->
     (1000 * (clock (js_fractional epoch) (ticks (js_fractional epoch)) - num_Q (NInt (-1)))
      < 2500)%Q ->
     crossed (-1) (-11) = true -> b = true).
Proof.
  apply (JSObserver_need_update_whole_seconds (js_fractional epoch) (PInt (-1))
           (NInt (-1)) 2500 (-1) (-11)).
  - vm_compute. reflexivity.
  - vm_compute. reflexivity.
  - reflexivity.
  - vm_compute. reflexivity.
  - vm_compute. reflexivity.
Defined.

(** ** The constructor of the status file sink *)

(** X15.  The constructor of the status file sink, given a number of
    seconds (integer, float or boolean), creates [progress.js] with the
    document ["Render in progress"] and the milliseconds as [%d] prints
    them; given anything else it raises [TypeError] on [1000 * minrefresh]
    before the file is opened, so no file exists. *)
Theorem JSObserver__init___outcome (clk : nat -> Q) (minrefresh : pyval) :
  match as_num minrefresh with
  | Some n =>
      raised (JSObserver__init__ minrefresh (fresh clk)) = None /\
      file (final (JSObserver__init__ minrefresh (fresh clk)))
      = Some (FDoc {| doc_message := "Render in progress";
                      doc_update := JInt (Qtrunc (1000 * num_Q n)) |}) /\
      writes (final (JSObserver__init__ minrefresh (fresh clk))) = 1%nat
  | None =>
      raised (JSObserver__init__ minrefresh (fresh clk)) = Some TypeError /\
      file (final (JSObserver__init__ minrefresh (fresh clk))) = None /\
      writes (final (JSObserver__init__ minrefresh (fresh clk))) = 0%nat
  end.
Proof.
  assert (forall z : Z, Qtrunc (1000 * inject_Z z) = 1000 * z) as Hint.
  { intros z. rewrite <- (Qtrunc_inject_Z (1000 * z)). apply Qtrunc_proper.
    now rewrite inject_Z_mult. }
  unfold JSObserver__init__.
  destruct minrefresh as [|b|z|q|]; cbn [as_num num_Q]; msteps.
  - repeat split.
  - change (py_mul (PInt 1000) (PBool b)) with (Val (PInt (1000 * (if b then 1 else 0)))).
    msteps. cbn [fmt_d as_num]. msteps. rewrite Hint. repeat split.
  - change (py_mul (PInt 1000) (PInt z)) with (Val (PInt (1000 * z))).
    msteps. cbn [fmt_d as_num]. msteps. rewrite Hint. repeat split.
  - change (py_mul (PInt 1000) (PFloat q)) with (Val (mkfloat (1000 * q))).
    msteps. cbn [mkfloat fmt_d as_num]. msteps. rewrite Qtrunc_Qred. repeat split.
  - repeat split.
Qed.

(** ** What an update leaves alone *)

(** X16.  An update of the log sink that repeats the value of the update
    before it is never logged: the second call answers [False] and leaves
    the log and the last logged value as the first call left them. *)
Theorem LoggingObserver_repeat_silent (w : world) (v lu m : Z) :
  attrs w !! "last_update" = Some (PInt lu) ->
  attrs w !! "_max_value" = Some (PInt m) ->
  exists r w1 w2,
    update LoggingObserver (PInt v) w = Ok r w1 /\
    update LoggingObserver (PInt v) w1 = Ok (PBool false) w2 /\
    log w2 = log w1 /\
    attrs w2 !! "last_update" = attrs w1 !! "last_update".
Proof.
  intros Hlu Hm. rewrite (LoggingObserver_update_run w v lu m Hlu Hm).
  destruct (crossed v lu) eqn:Hc.
  - eexists _, _, _. split; [reflexivity|].
    rewrite (LoggingObserver_update_run _ v v m) by attr.
    assert (crossed v v = false) as ->.
    { unfold crossed. apply Z.ltb_ge. pose proof (threshold_range v). lia. }
    repeat split. wsimpl. now rewrite !lookup_insert_ne by discriminate.
  - eexists _, _, _. split; [reflexivity|].
    rewrite (LoggingObserver_update_run _ v lu m) by attr. rewrite Hc.
    repeat split. wsimpl. now rewrite !lookup_insert_ne by discriminate.
Qed.

Lemma LoggingObserver_repeat_silent_witness :
  exists r w1 w2,
    update LoggingObserver (PInt 15) (log_started epoch) = Ok r w1 /\
    update LoggingObserver (PInt 15) w1 = Ok (PBool false) w2 /\
    log w2 = log w1 /\
    attrs w2 !! "last_update" = attrs w1 !! "last_update".
Proof.
  apply (LoggingObserver_repeat_silent (log_started epoch) 15 0 1000).
  - vm_compute. reflexivity.
  - vm_compute. reflexivity.
Defined.

(** X17.  An update of the status file sink never changes [minrefresh],
    [_max_value] or the clock; when it does not emit it changes nothing but
    the current value (one clock reading is taken): the file, the count of
    writes and both parts of the throttle state stay; when it emits, the
    throttle state becomes the value and the third clock reading of the
    call, and the file is written once. *)
Theorem JSObserver_update_frame
    (w : world) (lut : pyval) (nl : num) (ms lu m v : Z) :
  attrs w !! "minrefresh" = Some (PInt ms) ->
  attrs w !! "last_update_time" = Some lut -> as_num lut = Some nl ->
  attrs w !! "last_update" = Some (PInt lu) ->
  attrs w !! "_max_value" = Some (PInt m) ->
  exists b w',
    update JSObserver (PInt v) w = Ok (PBool b) w' /\
    attrs w' !! "minrefresh" = Some (PInt ms) /\
    attrs w' !! "_max_value" = Some (PInt m) /\
    attrs w' !! "_current_value" = Some (PInt v) /\
    clock w' = clock w /\ log w' = log w /\
    if b then
      attrs w' !! "last_update" = Some (PInt v) /\
      attrs w' !! "last_update_time" = Some (mkfloat (clock w (S (S (ticks w))))) /\
      writes w' = S (writes w) /\ ticks w' = S (S (S (ticks w)))
    else
      attrs w' !! "last_update" = Some (PInt lu) /\
      attrs w' !! "last_update_time" = Some lut /\
      file w' = file w /\ writes w' = writes w /\ ticks w' = S (ticks w).
Proof.
  intros Hms Hlut Hnl Hlu Hm.
  rewrite (JSObserver_update_run w v lut nl ms lu m Hlut Hnl Hms Hlu Hm).
  destruct (_ && _); eexists _, _; (split; [reflexivity|]);
    repeat split; attr.
Qed.

Lemma JSObserver_update_frame_witness :
  exists b w',
    update JSObserver (PInt 0) (js_started epoch) = Ok (PBool b) w' /\
    attrs w' !! "minrefresh" = Some (PInt (1000 * 5)) /\
    attrs w' !! "_max_value" = Some (PInt 100) /\
    attrs w' !! "_current_value" = Some (PInt 0) /\
    clock w' = clock (js_started epoch) /\ log w' = log (js_started epoch) /\
    if b then
      attrs w' !! "last_update" = Some (PInt 0) /\
      attrs w' !! "last_update_time"
      = Some (mkfloat (clock (js_started epoch) (S (S (ticks (js_started epoch)))))) /\
      writes w' = S (writes (js_started epoch)) /\
      ticks w' = S (S (S (ticks (js_started epoch))))
    else
      attrs w' !! "last_update" = Some (PInt (-11)) /\
      attrs w' !! "last_update_time" = Some (PInt (-1)) /\
      file w' = file (js_started epoch) /\ writes w' = writes (js_started epoch) /\
      ticks w' = S (ticks (js_started epoch)).
Proof.
  destruct (js_started_attrs epoch) as (H1 & H2 & H3 & H4).
  exact (JSObserver_update_frame (js_started epoch) (PInt (-1)) (NInt (-1))
           (1000 * 5) (-11) 100 0 H1 H2 eq_refl H3 H4).
Defined.
